(** * Industrial health dashboard: trend analysis and threshold alerting

    A shallow embedding of the decision logic of the dashboard component
    [IndustrialHealthDashboard]: the trend classifier [analyzeTrend], the
    statistics aggregator [calculateStatistics], the alert engine
    ([checkForCriticalAlerts], [dismissAlert], [dismissAllAlerts]) and the
    per-card indicator [getMetricAlert].

    JavaScript numbers are IEEE 754 binary64 values; they are modelled by
    Rocq's primitive floats, which are the same format, so that every
    arithmetic step of the component rounds here as it does in the
    browser.  React state is modelled by an explicit record that each
    handler maps to the next state.  Where a statement needs a bound on
    a rounding error, magnitudes are compared as real numbers. *)

From Stdlib Require Import Reals Lra.
From Stdlib Require Import ZArith List String Ascii Bool Lia Floats Uint63 DecimalString.
From stdpp Require Import gmap strings list.
Import ListNotations.

#[local] Set Warnings "-inexact-float".
#[local] Open Scope string_scope.
#[local] Open Scope Z_scope.

(** ** The part of the JavaScript runtime the component relies on *)

Module JS.

(** A JavaScript [Number]. *)
Definition number := float.

(** The values a sample field or a handler argument can hold. *)
Inductive value :=
| VUndefined
| VNull
| VNumber (x : number)
| VString (s : string).

(** An array length as a [Number]; exact below 2^53, and an array is
    shorter than 2^32. *)
Definition of_nat (n : nat) : number :=
  PrimFloat.of_uint63 (Uint63.of_Z (Z.of_nat n)).

(** *** Operators and [Math] *)

Definition isNaN (x : number) : bool := PrimFloat.is_nan x.

(** [x < y], [x > y], [x === y] and [x !== y] on numbers. *)
Definition lt (x y : number) : bool := PrimFloat.ltb x y.
Definition gt (x y : number) : bool := PrimFloat.ltb y x.
Definition strict_eq (x y : number) : bool := PrimFloat.eqb x y.
Definition strict_ne (x y : number) : bool := negb (PrimFloat.eqb x y).

Definition Math_abs (x : number) : number := PrimFloat.abs x.
Definition Math_sqrt (x : number) : number := PrimFloat.sqrt x.

(** [Math.pow(x, 2)], taken as the correctly rounded square.  An
    engine may round a square that is not a binary64 number differently
    in the last place; the statements below rest on squares that are
    exact (of a zero, of 2.5, of 20 and 80), are [NaN], or underflow to
    zero under any rounding, and, for flat windows, on the exact square
    being below the number one unit in the last place above the
    computed one, which either neighbour of the exact square
    satisfies. *)
Definition Math_pow2 (x : number) : number := (x * x)%float.

(** [Math.min] and [Math.max] of two arguments: [NaN] is contagious and
    [-0] is smaller than [+0]. *)
Definition Math_min2 (a b : number) : number :=
  if PrimFloat.ltb a b then a
  else if PrimFloat.ltb b a then b
  else if isNaN a || isNaN b then nan
  else if PrimFloat.get_sign a then a else b.

Definition Math_max2 (a b : number) : number :=
  if PrimFloat.ltb a b then b
  else if PrimFloat.ltb b a then a
  else if isNaN a || isNaN b then nan
  else if PrimFloat.get_sign a then b else a.

(** [Math.min(...values)] and [Math.max(...values)]; with no argument they
    are [Infinity] and [-Infinity]. *)
Definition Math_min (values : list number) : number :=
  fold_left Math_min2 values infinity.
Definition Math_max (values : list number) : number :=
  fold_left Math_max2 values neg_infinity.

(** *** Decimal rendering: [Number.prototype.toFixed] *)

Definition pow10 (n : nat) : Z := 10 ^ Z.of_nat n.

(** The decimal digits of a natural number, ["0"] for zero. *)
Definition digits (n : Z) : string :=
  NilZero.string_of_uint (N.to_uint (Z.to_N n)).

(** The integer [n] for which [n / 10^f] is nearest to [m * 2^e], the
    larger one when two are equally near. *)
Definition scaled_round (m : positive) (e : Z) (f : nat) : Z :=
  let num := Z.pos m * pow10 f in
  if 0 <=? e then num * 2 ^ e
  else (2 * num + 2 ^ (- e)) / 2 ^ (- e + 1).

Fixpoint zeros (k : nat) : string :=
  match k with
  | O => ""
  | S k' => String "0" (zeros k')
  end.

(** The digits of [n] with a point before the last [f] of them, padded
    with zeros on the left to [f + 1] digits. *)
Definition fixed_point (n : Z) (f : nat) : string :=
  let m := digits n in
  match f with
  | O => m
  | _ =>
    let k := String.length m in
    let m := if (k <=? f)%nat then zeros (f + 1 - k) ++ m else m in
    let k := if (k <=? f)%nat then (f + 1)%nat else k in
    substring 0 (k - f) m ++ "." ++ substring (k - f) f m
  end.

(** The double nearest to an integer (ties to even). *)
Definition to_double (n : Z) : number :=
  SF2Prim (binary_normalize prec emax n 0 false).

(** [Number::toString] for a double [x >= 10^21], whose value is the
    integer [X]: the shortest digit string [s] (of [k] digits) such that
    [s * 10^(n-k)] reads back as [x], the nearest to [X] among those and
    the even one on a tie, in exponential notation. *)
Definition candidates (x : number) (X : Z) (k : nat) : list (Z * (nat * Z)) :=
  let nd := String.length (digits X) in
  flat_map (fun n =>
    let p := pow10 (n - k) in
    flat_map (fun s =>
      if (pow10 (k - 1) <=? s) && (s <? pow10 k)
         && PrimFloat.eqb (to_double (s * p)) x
      then [(Z.abs (s * p - X), (n, s))] else [])
      [X / p; X / p + 1])
    [nd; S nd].

Definition better (a b : Z * (nat * Z)) : Z * (nat * Z) :=
  if fst b <? fst a then b
  else if (fst b =? fst a) && Z.even (snd (snd b)) && negb (Z.even (snd (snd a)))
       then b
  else a.

Fixpoint shortest (x : number) (X : Z) (k : nat) (fuel : nat)
  : option (nat * nat * Z) :=
  match fuel with
  | O => None
  | S fuel' =>
    match candidates x X k with
    | c :: cs => let '(_, (n, s)) := fold_left better cs c in Some (k, n, s)
    | [] => shortest x X (S k) fuel'
    end
  end.

Definition exponential (k n : nat) (s : Z) : string :=
  let ds := digits s in
  let e := digits (Z.of_nat n - 1) in
  match k with
  | 1%nat => ds ++ "e+" ++ e
  | _ => substring 0 1 ds ++ "." ++ substring 1 (k - 1) ds ++ "e+" ++ e
  end.

Definition toString_large (x : number) (m : positive) (e : Z) : string :=
  match shortest x (Z.pos m * 2 ^ e) 1 17 with
  | Some (k, n, s) => exponential k n s
  | None => ""
  end.

(** [x.toFixed(f)]. *)
Definition toFixed (x : number) (f : nat) : string :=
  match Prim2SF x with
  | S754_nan => "NaN"
  | S754_infinity false => "Infinity"
  | S754_infinity true => "-Infinity"
  | S754_zero _ => fixed_point 0 f
  | S754_finite s m e =>
    let sign := if s then "-" else "" in
    if PrimFloat.leb 1e21 (PrimFloat.abs x)
    then sign ++ toString_large (PrimFloat.abs x) m e
    else sign ++ fixed_point (scaled_round m e f) f
  end.

(** *** Decimal parsing: [parseFloat] *)

Definition code (c : ascii) : Z := Z.of_nat (nat_of_ascii c).

(** White space and line terminators, by the length of their UTF-8
    encoding. *)
Definition ws1 (a : ascii) : bool :=
  let n := code a in ((9 <=? n) && (n <=? 13)) || (n =? 32).

Definition ws2 (a b : ascii) : bool :=
  (code a =? 194) && (code b =? 160).

Definition ws3 (a b c : ascii) : bool :=
  let '(x, y, z) := (code a, code b, code c) in
  ((x =? 225) && (y =? 154) && (z =? 128))
  || ((x =? 226) && (y =? 128)
      && (((128 <=? z) && (z <=? 138)) || (z =? 168) || (z =? 169) || (z =? 175)))
  || ((x =? 226) && (y =? 129) && (z =? 159))
  || ((x =? 227) && (y =? 128) && (z =? 128))
  || ((x =? 239) && (y =? 187) && (z =? 191)).

Fixpoint trimStart (s : string) : string :=
  match s with
  | String a r =>
    if ws1 a then trimStart r else
    match r with
    | String b r2 =>
      if ws2 a b then trimStart r2 else
      match r2 with
      | String c r3 => if ws3 a b c then trimStart r3 else s
      | EmptyString => s
      end
    | EmptyString => s
    end
  | EmptyString => s
  end.

Definition digit (c : ascii) : option Z :=
  let n := code c in
  if (48 <=? n) && (n <=? 57) then Some (n - 48) else None.

(** Reads the longest run of decimal digits: the value accumulated, the
    number of digits read and the rest of the string. *)
Fixpoint read_digits (s : string) (acc : Z) (cnt : Z) : Z * Z * string :=
  match s with
  | String c r =>
    match digit c with
    | Some d => read_digits r (10 * acc + d) (cnt + 1)
    | None => (acc, cnt, s)
    end
  | EmptyString => (acc, cnt, s)
  end.

(** An exponent part [e], [e+] or [e-] followed by at least one digit;
    0 when there is none. *)
Definition read_exponent (s : string) : Z :=
  match s with
  | String c r =>
    if (code c =? 101) || (code c =? 69) then
      let '(neg, r') :=
        match r with
        | String sg r2 =>
          if code sg =? 45 then (true, r2)
          else if code sg =? 43 then (false, r2) else (false, r)
        | EmptyString => (false, r)
        end in
      let '(v, cnt, _) := read_digits r' 0 0 in
      if cnt =? 0 then 0 else if neg then - v else v
    else 0
  | EmptyString => 0
  end.

(** The double nearest to [m * 10^k] (ties to even). *)
Definition decimal_value (m : Z) (k : Z) : number :=
  match m with
  | Z.pos p =>
    SF2Prim
      (if 0 <=? k
       then binary_normalize prec emax (Z.pos p * 10 ^ k) 0 false
       else SFdiv prec emax (S754_finite false p 0)
                  (S754_finite false (Z.to_pos (10 ^ (- k))) 0))
  | _ => 0%float
  end.

Definition apply_sign (neg : bool) (x : number) : number :=
  if neg then (- x)%float else x.

(** [parseFloat] of a string: leading white space is skipped and the
    longest prefix that is a decimal literal is read; [NaN] when there
    is none. *)
Definition parseFloatString (input : string) : number :=
  let s := trimStart input in
  let '(neg, s) :=
    match s with
    | String c r =>
      if code c =? 45 then (true, r)
      else if code c =? 43 then (false, r) else (false, s)
    | EmptyString => (false, s)
    end in
  if String.prefix "Infinity" s then apply_sign neg infinity
  else
    let '(ip, icnt, r) := read_digits s 0 0 in
    let '(m, fcnt, r) :=
      match r with
      | String c r' =>
        if code c =? 46 then
          let '(m, fcnt, r'') := read_digits r' ip 0 in
          if (icnt =? 0) && (fcnt =? 0) then (ip, 0, r) else (m, fcnt, r'')
        else (ip, 0, r)
      | EmptyString => (ip, 0, r)
      end in
    if (icnt =? 0) && (fcnt =? 0) then nan
    else apply_sign neg (decimal_value m (read_exponent r - fcnt)).

(** [parseFloat(v)] converts its argument to a string first.  A number
    prints to a string that reads back as the same number, except that
    [-0] prints as ["0"]; [undefined] and [null] print as words that are
    not numbers. *)
Definition parseFloat (v : value) : number :=
  match v with
  | VUndefined | VNull => nan
  | VNumber x => if PrimFloat.is_zero x then 0%float else x
  | VString s => parseFloatString s
  end.

(** [a || d] on a number that may be [undefined]: [d] replaces
    [undefined], [0] and [NaN]. *)
Definition or_number (a : option number) (d : number) : number :=
  match a with
  | Some x => if PrimFloat.is_zero x || isNaN x then d else x
  | None => d
  end.

(** [a || d] on a string that may be [undefined]. *)
Definition or_string (a : option string) (d : string) : string :=
  match a with
  | Some "" | None => d
  | Some s => s
  end.

(** [arr[i]] used as a number: an index out of range reads [undefined],
    which is [NaN] in arithmetic. *)
Definition index (arr : list number) (i : nat) : number := nth i arr nan.

(** [arr.slice(-n)]: the last [n] elements, all of them when there are
    fewer. *)
Definition slice_last {A} (n : nat) (arr : list A) : list A :=
  skipn (length arr - n) arr.

(** [s === v] for a string [s] and any value [v]. *)
Definition string_strict_eq (s : string) (v : value) : bool :=
  match v with
  | VString t => String.eqb s t
  | _ => false
  end.

(** [s.charAt(0).toUpperCase() + s.slice(1)] on ASCII letters. *)
Definition capitalize (s : string) : string :=
  match s with
  | String c r =>
    let n := nat_of_ascii c in
    String (if (97 <=? n)%nat && (n <=? 122)%nat then ascii_of_nat (n - 32) else c) r
  | EmptyString => s
  end.

End JS.

Import JS.

(** ** Data model *)

(** A telemetry sample is an object; a field that is absent reads
    [undefined]. *)
Definition Sample := gmap string value.

Definition get (item : Sample) (key : string) : value :=
  default VUndefined (item !! key).

(** The object [analyzeTrend] returns. *)
Record TrendInsight := {
  trend : number;
  isAbnormal : bool;
  suggestion : list string;
  rateOfChange : string
}.

(** An entry of the suggestion catalog. *)
Record Insight := {
  high : list string;
  low : list string;
  stable : list string;
  prediction : string
}.

(** An entry of the object [calculateStatistics] returns. *)
Module Stats.
Record t := {
  min : string;
  max : string;
  avg : string;
  current : string
}.
End Stats.

(** An alert of the queue. *)
Module Alert.
Record t := {
  id : string;
  metric : string;
  severity : string;
  message : string;
  currentValue : string;
  threshold : string;
  description : string;
  timestamp : string
}.
End Alert.

(** The object [getMetricAlert] returns for a card. *)
Module CardAlert.
Record t := {
  type : string;
  message : string;
  description : string;
  icon : string;
  color : string;
  backgroundColor : string
}.
End CardAlert.

(** The component state the core reads and writes. *)
Record State := {
  data : list Sample;
  latestValues : option Sample;
  alerts : list Alert.t;
  showAlertModal : bool
}.

(** What the clock and the random generator give when one alert is
    built: [Date.now()] and [Math.random()] as they print in a string
    concatenation, and [new Date().toLocaleTimeString()]. *)
Record Clock := {
  Date_now : string;
  Math_random : string;
  toLocaleTimeString : string
}.

(** ** The trend classifier *)

(** The sensitivity multipliers of [analyzeTrend].  A metric name is one
    of the keys the component gives its samples; the members an object
    literal inherits ([constructor], [toString], ...) are not among
    them and are left out of the two tables. *)
Definition thresholds : gmap string number :=
  list_to_map [
    ("temperature", 2.0%float);
    ("humidity", 2.0%float);
    ("voltage", 1.5%float);
    ("current", 2.0%float);
    ("oilLevel", 1.5%float);
    ("power", 2.5%float);
    ("energy", 2.0%float);
    ("angle", 1.2%float)
  ].

(** The suggestion catalog of [analyzeTrend]. *)
Definition insights : gmap string Insight :=
  list_to_map [
    ("current",
     {| high :=
          [ "⚠️ High current detected. Risk of overload or short circuit.";
            "1. Check for any short circuits in the wiring system";
            "2. Verify load distribution across phases";
            "3. Inspect insulation resistance of equipment" ];
        low :=
          [ "⚠️ Low current detected. Possible connection issues.";
            "1. Check for loose connections or disconnected components";
            "2. Verify power supply unit functionality";
            "3. Inspect circuit breakers and fuses" ];
        stable :=
          [ "✅ Current levels are stable.";
            "1. Continue monitoring for any fluctuations";
            "2. Schedule next routine maintenance" ];
        prediction := "Current trend analysis indicates potential issues in" |});
    ("voltage",
     {| high :=
          [ "⚠️ High voltage detected. Risk to equipment.";
            "1. Check voltage regulator settings";
            "2. Verify transformer tap settings";
            "3. Monitor power factor correction" ];
        low :=
          [ "⚠️ Low voltage detected. Performance impact likely.";
            "1. Check for power supply issues";
            "2. Inspect distribution network";
            "3. Verify load balancing" ];
        stable :=
          [ "✅ Voltage levels are stable.";
            "1. Monitor power quality metrics";
            "2. Review energy efficiency" ];
        prediction := "Voltage trend suggests potential issues in" |});
    ("temperature",
     {| high :=
          [ "🔥 High temperature detected. Risk of equipment damage.";
            "1. Check cooling system efficiency";
            "2. Verify airflow and ventilation";
            "3. Inspect thermal insulation" ];
        low :=
          [ "❄️ Low temperature detected. Check environment.";
            "1. Verify heating system operation";
            "2. Check for cold air infiltration";
            "3. Monitor ambient conditions" ];
        stable :=
          [ "✅ Temperature is within safe range.";
            "1. Continue monitoring thermal trends";
            "2. Schedule preventive HVAC maintenance" ];
        prediction := "Temperature trends indicate potential issues in" |});
    ("humidity",
     {| high :=
          [ "💧 High humidity detected. Risk of corrosion.";
            "1. Check dehumidification systems";
            "2. Inspect for water leaks";
            "3. Verify ventilation effectiveness" ];
        low :=
          [ "🏜️ Low humidity detected. Static risk present.";
            "1. Check humidification systems";
            "2. Monitor material conditions";
            "3. Verify environmental seals" ];
        stable :=
          [ "✅ Humidity levels are optimal.";
            "1. Monitor seasonal variations";
            "2. Check moisture barriers" ];
        prediction := "Humidity conditions may affect equipment in" |});
    ("oilLevel",
     {| high :=
          [ "🛢️ High oil level detected. Risk of leakage.";
            "1. Check for overfilling conditions";
            "2. Inspect seals and gaskets";
            "3. Verify oil pressure readings" ];
        low :=
          [ "⚠️ Low oil level detected. Maintenance needed.";
            "1. Check for leaks or consumption";
            "2. Schedule oil top-up";
            "3. Monitor oil pressure" ];
        stable :=
          [ "✅ Oil levels are normal.";
            "1. Plan next oil analysis";
            "2. Monitor consumption rate" ];
        prediction := "Oil maintenance may be needed in" |});
    ("power",
     {| high :=
          [ "⚡ High power consumption detected.";
            "1. Check for equipment overload";
            "2. Review active processes";
            "3. Monitor thermal conditions" ];
        low :=
          [ "📉 Low power consumption detected.";
            "1. Verify equipment operation";
            "2. Check for partial shutdowns";
            "3. Review efficiency metrics" ];
        stable :=
          [ "✅ Power consumption is optimal.";
            "1. Continue monitoring load patterns";
            "2. Schedule efficiency review" ];
        prediction := "Power optimization may be needed in" |});
    ("energy",
     {| high :=
          [ "⚠️ High energy usage trend detected.";
            "1. Analyze consumption patterns";
            "2. Check for energy inefficiencies";
            "3. Consider load balancing" ];
        low :=
          [ "📊 Low energy consumption detected.";
            "1. Verify all systems are operational";
            "2. Check for unexpected shutdowns";
            "3. Review production schedules" ];
        stable :=
          [ "✅ Energy consumption is stable.";
            "1. Monitor efficiency metrics";
            "2. Plan energy audit" ];
        prediction := "Energy optimization recommended in" |});
    ("angle",
     {| high :=
          [ "📐 High angle deviation detected.";
            "1. Check mechanical alignment";
            "2. Inspect mounting brackets";
            "3. Verify sensor calibration" ];
        low :=
          [ "⚠️ Low angle position detected.";
            "1. Check for mechanical stress";
            "2. Verify position sensors";
            "3. Inspect mounting stability" ];
        stable :=
          [ "✅ Angular position is stable.";
            "1. Continue alignment monitoring";
            "2. Schedule calibration check" ];
        prediction := "Alignment check recommended in" |})
  ].

(** [data.map(item => parseFloat(item[metric]))] *)
Definition values (data : list Sample) (metric : string) : list number :=
  map (fun item => parseFloat (get item metric)) data.

(** [values.slice(-5)] *)
Definition recentValues (data : list Sample) (metric : string) : list number :=
  slice_last 5 (values data metric).

(** The local constants of [analyzeTrend], as functions of the window
    [recentValues] and of the metric. *)
Definition last_value (w : list number) : number := index w (length w - 1).
Definition first_value (w : list number) : number := index w 0.

Definition trend_of (w : list number) : number :=
  (last_value w - first_value w)%float.

Definition avgValue (w : list number) : number :=
  (fold_left (fun a b => a + b) w 0 / of_nat (length w))%float.

Definition stdDev (w : list number) : number :=
  Math_sqrt
    (fold_left (fun sq n => sq + Math_pow2 (n - avgValue w)) w 0
     / of_nat (length w))%float.

Definition multiplier (metric : string) : number :=
  or_number (thresholds !! metric) 2.0%float.

Definition isAbnormal_of (w : list number) (metric : string) : bool :=
  gt (Math_abs (last_value w - avgValue w)%float)
     (multiplier metric * stdDev w)%float.

Definition rateOfChange_of (w : list number) : number :=
  ((last_value w - first_value w) / first_value w * 100)%float.

(** The sentence appended when the rate of change is significant. *)
Definition predictive_sentence (metric : string) (rate : number) : string :=
  let timeToThreshold := Math_abs (100 / rate * 24)%float in
  or_string (prediction <$> insights !! metric) "May require attention in"
  ++ " " ++ toFixed timeToThreshold 1 ++ " hours.".

Definition suggestion_of (w : list number) (metric : string) : list string :=
  if isAbnormal_of w metric then
    let suggestion :=
      if gt (trend_of w) 0%float
      then default ["⚠️ Abnormal increase in " ++ metric ++ " detected."]
                   (high <$> insights !! metric)
      else default ["⚠️ Abnormal decrease in " ++ metric ++ " detected."]
                   (low <$> insights !! metric) in
    if gt (Math_abs (rateOfChange_of w)) 10%float
    then (suggestion ++ [predictive_sentence metric (rateOfChange_of w)])%list
    else suggestion
  else default ["✅ " ++ metric ++ " levels are stable."]
               (stable <$> insights !! metric).

(** [analyzeTrend(data, metric)]; [None] is the [null] it returns for
    fewer than two samples. *)
Definition analyzeTrend (data : list Sample) (metric : string)
  : option TrendInsight :=
  if (length data <? 2)%nat then None
  else
    let w := recentValues data metric in
    Some {| trend := trend_of w;
            isAbnormal := isAbnormal_of w metric;
            suggestion := suggestion_of w metric;
            rateOfChange := toFixed (rateOfChange_of w) 1 ++ "%/hour" |}.

(** ** The statistics aggregator *)

(** [formatValue(value, precision)], with [precision = 1] by default. *)
Definition formatValue (v : value) (precision : nat) : string :=
  match v with
  | VUndefined | VNull => "—"
  | VNumber x => toFixed x precision
  | VString s => s
  end.

(** The metrics [calculateStatistics] goes through, in its order. *)
Definition metrics : list string :=
  ["temperature"; "humidity"; "oilLevel"; "voltage";
   "current"; "power"; "energy"; "angle"].

(** [data.map(d => parseFloat(d[metric])).filter(v => !isNaN(v))] *)
Definition numeric_values (data : list Sample) (metric : string) : list number :=
  List.filter (fun v => negb (isNaN v))
              (map (fun d => parseFloat (get d metric)) data).

(** The entry [calculateStatistics] writes for a metric. *)
Definition statistics_of (data : list Sample) (latest : Sample) (metric : string)
  : Stats.t :=
  let values := numeric_values data metric in
  {| Stats.min := toFixed (Math_min values) 2;
     Stats.max := toFixed (Math_max values) 2;
     Stats.avg :=
       toFixed (fold_left (fun a b => a + b) values 0
                / of_nat (length values))%float 2;
     Stats.current := formatValue (get latest metric) 1 |}.

(** One step of the [forEach] of [calculateStatistics]: the entry of a
    metric with at least one numeric value is written under the
    capitalised name.  Reading [latestValues[metric]] when
    [latestValues] is [null] throws; this is the [None] result. *)
Definition add_statistics (data : list Sample) (latest : option Sample)
    (stats : option (gmap string Stats.t)) (metric : string)
  : option (gmap string Stats.t) :=
  match stats with
  | None => None
  | Some acc =>
    if (0 <? length (numeric_values data metric))%nat then
      match latest with
      | None => None
      | Some l => Some (<[ capitalize metric := statistics_of data l metric ]> acc)
      end
    else Some acc
  end.

Definition calculateStatistics (st : State) : option (gmap string Stats.t) :=
  if (length (data st) =? 0)%nat then Some ∅
  else fold_left (add_statistics (data st) (latestValues st)) metrics (Some ∅).

(** ** The alert engine *)

(** [latestValues?.field] *)
Definition latest_field (st : State) (field : string) : value :=
  match latestValues st with
  | Some l => get l field
  | None => VUndefined
  end.

(** [raw !== undefined ? parseFloat(raw) : NaN] *)
Definition parse_latest (raw : value) : number :=
  match raw with
  | VUndefined => nan
  | _ => parseFloat raw
  end.

(** The alert of the oil-level rule. *)
Definition oil_alert (c : Clock) (oilLevel : number) : Alert.t :=
  let isBelow := lt oilLevel 20%float in
  {| Alert.id := "oil-" ++ Date_now c ++ Math_random c;
     Alert.metric := "Oil Level";
     Alert.severity := "critical";
     Alert.message :=
       "🛢️ Oil Level " ++ (if isBelow then "LOW" else "HIGH") ++ " ALERT";
     Alert.currentValue := toFixed oilLevel 1 ++ "%";
     Alert.threshold := "20%";
     Alert.description :=
       "Oil level is " ++ toFixed oilLevel 1 ++ "% ("
       ++ (if isBelow then "below" else "above") ++ " threshold 20%)";
     Alert.timestamp := toLocaleTimeString c |}.

(** The alert of the angle rule. *)
Definition angle_alert (c : Clock) (angle : number) : Alert.t :=
  let isBelow := lt angle (-3.5)%float in
  {| Alert.id := "angle-" ++ Date_now c ++ Math_random c;
     Alert.metric := "Angle";
     Alert.severity := "critical";
     Alert.message :=
       "📐 Angle " ++ (if isBelow then "LOW" else "HIGH") ++ " ALERT";
     Alert.currentValue := toFixed angle 2 ++ "°";
     Alert.threshold := "Normal range: -3.5° to 3.5°";
     Alert.description :=
       "Angle is " ++ toFixed angle 2 ++ "° ("
       ++ (if isBelow then "below -3.5°" else "above 3.5°") ++ " threshold)";
     Alert.timestamp := toLocaleTimeString c |}.

(** The list [currentAlerts] that [checkForCriticalAlerts] builds from
    the latest sample; [oilClock] and [angleClock] are the clock and
    random readings taken while each alert is built. *)
Definition currentAlerts (oilClock angleClock : Clock) (st : State)
  : list Alert.t :=
  let oilLevel := parse_latest (latest_field st "oilLevel") in
  let angle := parse_latest (latest_field st "angle") in
  let currentAlerts : list Alert.t := [] in
  let currentAlerts :=
    if negb (isNaN oilLevel) && strict_ne oilLevel 20%float
    then (currentAlerts ++ [oil_alert oilClock oilLevel])%list
    else currentAlerts in
  let currentAlerts :=
    if negb (isNaN angle) && (lt angle (-3.5)%float || gt angle 3.5%float)
    then (currentAlerts ++ [angle_alert angleClock angle])%list
    else currentAlerts in
  currentAlerts.

Definition checkForCriticalAlerts (oilClock angleClock : Clock) (st : State)
  : State :=
  let currentAlerts := currentAlerts oilClock angleClock st in
  if (0 <? length currentAlerts)%nat then
    {| data := data st;
       latestValues := latestValues st;
       alerts := currentAlerts;
       showAlertModal := true |}
  else
    {| data := data st;
       latestValues := latestValues st;
       alerts := [];
       showAlertModal := showAlertModal st |}.

(** [dismissAlert(alertId)]: the filter runs on the queue, the length
    test on the queue the handler was rendered with; within one event
    the two are the same list. *)
Definition dismissAlert (alertId : value) (st : State) : State :=
  {| data := data st;
     latestValues := latestValues st;
     alerts :=
       List.filter (fun alert => negb (string_strict_eq (Alert.id alert) alertId))
                   (alerts st);
     showAlertModal :=
       if (length (alerts st) <=? 1)%nat then false else showAlertModal st |}.

Definition dismissAllAlerts (st : State) : State :=
  {| data := data st;
     latestValues := latestValues st;
     alerts := [];
     showAlertModal := false |}.

(** [getMetricAlert(metric, value)]; [None] is [null].  A block that
    does not return falls through to the next one. *)
Definition oil_card (numValue : number) : option CardAlert.t :=
  if strict_ne numValue 20%float then
    if lt numValue 20%float then
      Some {| CardAlert.type := "low";
              CardAlert.message := "🛢️ Oil Level LOW ALERT";
              CardAlert.description :=
                "Oil level is " ++ toFixed numValue 1 ++ "% (below threshold 20%)";
              CardAlert.icon := "🔴";
              CardAlert.color := "#ff0000";
              CardAlert.backgroundColor := "rgba(255, 0, 0, 0.15)" |}
    else if gt numValue 20%float then
      Some {| CardAlert.type := "high";
              CardAlert.message := "🛢️ Oil Level HIGH ALERT";
              CardAlert.description :=
                "Oil level is " ++ toFixed numValue 1 ++ "% (above threshold 20%)";
              CardAlert.icon := "🔴";
              CardAlert.color := "#ff0000";
              CardAlert.backgroundColor := "rgba(255, 0, 0, 0.15)" |}
    else None
  else None.

Definition angle_card (numValue : number) : option CardAlert.t :=
  if lt numValue (-3.5)%float then
    Some {| CardAlert.type := "low";
            CardAlert.message := "📐 Angle LOW ALERT";
            CardAlert.description :=
              "Angle is " ++ toFixed numValue 2 ++ "° (below -3.5° threshold)";
            CardAlert.icon := "🔴";
            CardAlert.color := "#ff0000";
            CardAlert.backgroundColor := "rgba(255, 0, 0, 0.15)" |}
  else if gt numValue 3.5%float then
    Some {| CardAlert.type := "high";
            CardAlert.message := "📐 Angle HIGH ALERT";
            CardAlert.description :=
              "Angle is " ++ toFixed numValue 2 ++ "° (above 3.5° threshold)";
            CardAlert.icon := "🔴";
            CardAlert.color := "#ff0000";
            CardAlert.backgroundColor := "rgba(255, 0, 0, 0.15)" |}
  else None.

Definition getMetricAlert (metric : string) (v : value) : option CardAlert.t :=
  let fromOil :=
    if String.eqb metric "Oil Level" then
      let numValue := parseFloat v in
      if isNaN numValue then Some None
      else match oil_card numValue with
           | Some a => Some (Some a)
           | None => None
           end
    else None in
  match fromOil with
  | Some result => result
  | None =>
    if String.eqb metric "Angle" then
      let numValue := parseFloat v in
      if isNaN numValue then None else angle_card numValue
    else None
  end.

(** The alert a metric card shows: [MetricCard] is given
    [formatValue(latestValues?.field)] as its value and passes it on to
    [getMetricAlert]. *)
Definition card_alert (title field : string) (st : State) : option CardAlert.t :=
  getMetricAlert title (VString (formatValue (latest_field st field) 1)).

(** ** Vocabulary of the statements and example inputs *)

(** The alerts of a queue that are about one metric. *)
Definition about (metric : string) (queue : list Alert.t) : list Alert.t :=
  List.filter (fun a => String.eqb (Alert.metric a) metric) queue.

(** The closed interval from -3.5 to 3.5. *)
Definition in_band (angle : number) : bool :=
  PrimFloat.leb (-3.5)%float angle && PrimFloat.leb angle 3.5%float.

(** All the values of a window are [===] to [v]. *)
Definition flat (w : list number) (v : number) : Prop :=
  Forall (fun x => strict_eq x v = true) w.

(** A zero of either sign, or [NaN]: what the difference of two numbers
    that are [===] to a third one can be. *)
Definition nullish (d : number) : Prop :=
  d = 0%float \/ d = (-0)%float \/ d = nan.

(** [+0] or [NaN]: what a sum of squares of such differences can be. *)
Definition zero_or_nan (x : number) : Prop :=
  x = 0%float \/ x = nan.

(** A series of samples that carry one metric. *)
Definition series (metric : string) (xs : list number) : list Sample :=
  map (fun x => {[ metric := VNumber x ]}) xs.

(** A sample with the two fields the alert engine reads. *)
Definition reading (oil angle : number) : Sample :=
  <[ "oilLevel" := VNumber oil ]> {[ "angle" := VNumber angle ]}.
Arguments reading (oil angle)%_float_scope.

(** A state with the given latest sample, queue and modal flag. *)
Definition state_of (latest : Sample) (queue : list Alert.t) (modal : bool)
  : State :=
  {| data := [latest];
     latestValues := Some latest;
     alerts := queue;
     showAlertModal := modal |}.

(** A state whose series of temperatures is 10, 20, 30. *)
Definition statistics_example : State :=
  {| data := series "temperature" [10; 20; 30]%float;
     latestValues := Some {[ "temperature" := VNumber 30%float ]};
     alerts := [];
     showAlertModal := false |}.

(** The last five oil levels of the data set the component generates
    when the sheet cannot be read ([i % 5 === 0 ? 100 : 0] for
    [i = 4, 3, 2, 1, 0]). *)
Definition fallback_oil : list Sample :=
  series "oilLevel" [0; 0; 0; 0; 100]%float.

Definition clock0 : Clock :=
  {| Date_now := "1730000000000";
     Math_random := "0.25";
     toLocaleTimeString := "10:00:00 AM" |}.

Definition clock1 : Clock :=
  {| Date_now := "1730000180000";
     Math_random := "0.75";
     toLocaleTimeString := "10:03:00 AM" |}.

(** ** Ingestion of sheet rows *)

(** Whether a value counts as true in [a || b] and [a && b]. *)
Definition truthy (v : value) : bool :=
  match v with
  | VUndefined | VNull => false
  | VNumber x => negb (PrimFloat.is_zero x || isNaN x)
  | VString s => negb (String.eqb s "")
  end.

(** [a || d] on values. *)
Definition or_value (a d : value) : value := if truthy a then a else d.

(** A cell of the sheet: its raw value [v] and its formatted value [f].
    The raw value of a checkbox cell is a boolean, which parses to [NaN]
    as [null] does; it is not among the values modelled. *)
Record Cell := {
  cell_v : value;
  cell_f : value
}.

(** What [fetchGoogleSheetData] stores for the column at [colIndex] of
    a row whose cells are [c]: the formatted value when there is one,
    the raw value otherwise, and [null] for an absent cell or a cell
    whose raw value is [null]. *)
Definition cell_value (c : list (option Cell)) (colIndex : nat) : value :=
  match nth_error c colIndex with
  | Some (Some cell) =>
    match cell_v cell with
    | VNull => VNull
    | _ => or_value (cell_f cell) (cell_v cell)
    end
  | _ => VNull
  end.

(** The [forEach] over the headers that fills [rowData]. *)
Fixpoint fill_rowData (headers : list string) (colIndex : nat)
    (c : list (option Cell)) (rowData : gmap string value) : gmap string value :=
  match headers with
  | [] => rowData
  | header :: rest =>
    fill_rowData rest (S colIndex) c (<[ header := cell_value c colIndex ]> rowData)
  end.

(** What the clock gives while one row is transformed:
    [new Date().toLocaleTimeString()] and [new Date().toLocaleDateString()]. *)
Record RowClock := {
  now_time : string;
  now_date : string
}.

(** [parseFloat(raw) || 0] *)
Definition number_or_zero (raw : value) : value :=
  VNumber (or_number (Some (parseFloat raw)) 0%float).

(** The sample [fetchGoogleSheetData] makes of a row. *)
Definition processRow (clock : RowClock) (rowData : gmap string value) : Sample :=
  <[ "timestamp" := or_value (get rowData "Time") (VString (now_time clock)) ]>
  (<[ "date" := or_value (get rowData "Date") (VString (now_date clock)) ]>
  (<[ "temperature" := number_or_zero (get rowData "Temperature") ]>
  (<[ "humidity" := number_or_zero (get rowData "Humidity (%)") ]>
  (<[ "oilLevel" := number_or_zero (get rowData "Oil Level (%)") ]>
  (<[ "voltage" := number_or_zero (get rowData "Voltage (V)") ]>
  (<[ "current" := number_or_zero (get rowData "Current (mA)") ]>
  (<[ "power" := number_or_zero (get rowData "Power (mW)") ]>
  (<[ "energy" := number_or_zero (get rowData "Energy (Wh)") ]>
  (<[ "angle" := number_or_zero (get rowData "Angle (°)") ]> ∅))))))))).

(** [jsonData.table.rows.map(...)]: each row comes with the clock
    readings taken while it is transformed. *)
Definition processedData (headers : list string)
    (rows : list (RowClock * list (option Cell))) : list Sample :=
  map (fun row => processRow (fst row) (fill_rowData headers 0 (snd row) ∅)) rows.

(** [arr[arr.length - 1]] *)
Definition latest_sample (arr : list Sample) : option Sample :=
  nth_error arr (length arr - 1).

(** [setData(d); setLatestValues(d[d.length - 1])], as both the sheet
    path and the fallback path do. *)
Definition with_data (d : list Sample) (st : State) : State :=
  {| data := d;
     latestValues := latest_sample d;
     alerts := alerts st;
     showAlertModal := showAlertModal st |}.

(** ** The fallback data set *)


(** What the clock and the random generator give while one fallback
    sample is built, in the order the code asks for them. *)
Record Draw := {
  at_time : string;
  at_date : string;
  r_temperature : number;
  r_humidity : number;
  r_voltage : number;
  r_current : number;
  r_power : number;
  r_energy : number;
  r_angle : number;
  r_sign : number
}.



(** ** The report *)

(** [getStatusIndicator(value, minNormal, maxNormal)] *)
Definition getStatusIndicator (v : value) (minNormal maxNormal : number) : string :=
  let numValue := or_number (Some (parseFloat v)) 0%float in
  if lt numValue minNormal || gt numValue maxNormal then "Warning" else "Normal".
Arguments getStatusIndicator v (minNormal maxNormal)%_float_scope.

(** ** The dismiss button *)

(** The handler of the dismiss button of the alert at [index] of the
    modal's list: [() => dismissAlert(index)]. *)
Definition dismiss_button (index : nat) (st : State) : State :=
  dismissAlert (VNumber (of_nat index)) st.

(** ** Vocabulary of the further statements *)

(** Whether a headline is a confirmation. *)
Definition confirms (headline : string) : bool := String.prefix "✅" headline.

(** A row of the sheet with a temperature, an oil level and an angle;
    [None] leaves the cell out. *)
Definition sheet_headers : list string :=
  ["Time"; "Date"; "Temperature"; "Humidity (%)"; "Oil Level (%)";
   "Voltage (V)"; "Current (mA)"; "Power (mW)"; "Energy (Wh)"; "Angle (°)"].

Definition number_cell (x : number) (shown : string) : option Cell :=
  Some {| cell_v := VNumber x; cell_f := VString shown |}.
Arguments number_cell x%_float_scope shown%_string_scope.

Definition clock_row : RowClock :=
  {| now_time := "10:00:00 AM"; now_date := "11/2/2026" |}.

(** A row in which the oil-level cell is empty. *)
Definition row_without_oil : list (option Cell) :=
  [ Some {| cell_v := VString "10:00:00"; cell_f := VUndefined |};
    Some {| cell_v := VString "2026-11-02"; cell_f := VUndefined |};
    number_cell 25.5 "25.5"; number_cell 60 "60"; None;
    number_cell 9.5 "9.5"; number_cell 120 "120"; number_cell 900 "900";
    number_cell 0.02 "0.02"; number_cell 1 "1" ].

Definition draw0 : Draw :=
  {| at_time := "10:00:00 AM"; at_date := "11/2/2026";
     r_temperature := 0.5%float; r_humidity := 0.5%float;
     r_voltage := 0.5%float; r_current := 0.5%float; r_power := 0.5%float;
     r_energy := 0.5%float; r_angle := 0.5%float; r_sign := 0.25%float |}.

(** ** Magnitudes of binary64 numbers *)



(** The deviation of the last windowed value from the window mean is
    not zero and its square, as [analyzeTrend] computes it, is a zero:
    the square has underflowed to zero. *)
Definition squared_deviation_vanishes (w : list number) : bool :=
  let d := (last_value w - avgValue w)%float in
  strict_ne d 0%float && strict_eq (Math_pow2 d) 0%float.

(** A number that is not zero and is smaller in magnitude than 2^-400
    (about 3.9e-121). *)
Definition tiny (v : number) : bool :=
  strict_ne v 0%float && lt (Math_abs v) 0x1p-400%float.












(** ** Comparison and subtraction of binary64 numbers *)

Section Binary64.

Lemma SFcompare_antisym (f g : spec_float) :
  SFcompare g f = option_map CompOpp (SFcompare f g).
Proof.
  destruct f as [s| s | |s m e], g as [s'|s'| |s' m' e']; simpl;
    try destruct s; try destruct s'; try reflexivity.
  all: rewrite (Z.compare_antisym e e'); destruct (e ?= e'); simpl;
    rewrite ?(Pos.compare_cont_antisym m m' Eq); simpl;
    rewrite ?CompOpp_involutive; reflexivity.
Qed.

Lemma SFcompare_total (f g : spec_float) :
  f <> S754_nan -> g <> S754_nan -> exists c, SFcompare f g = Some c.
Proof.
  intros Hf Hg.
  destruct f, g; simpl; try congruence; eauto.
Qed.

Lemma isNaN_false_SF (x : number) : isNaN x = false -> Prim2SF x <> S754_nan.
Proof.
  unfold isNaN, is_nan. rewrite FloatAxioms.eqb_spec.
  intros H E. rewrite E in H. discriminate.
Qed.

(** Of [x < y], [x === y] and [x > y] exactly one holds for numbers
    that are not [NaN]. *)
Lemma compare_cases (x y : number) :
  isNaN x = false -> isNaN y = false ->
  (lt x y = true /\ strict_eq x y = false /\ gt x y = false)
  \/ (lt x y = false /\ strict_eq x y = true /\ gt x y = false)
  \/ (lt x y = false /\ strict_eq x y = false /\ gt x y = true).
Proof.
  intros Hx Hy. apply isNaN_false_SF in Hx, Hy.
  unfold lt, gt, strict_eq. rewrite !FloatAxioms.ltb_spec, FloatAxioms.eqb_spec.
  unfold SFltb, SFeqb. rewrite (SFcompare_antisym (Prim2SF x) (Prim2SF y)).
  destruct (SFcompare_total _ _ Hx Hy) as [c ->].
  destruct c; simpl; auto.
Qed.

Lemma leb_lt_or_eq (x y : number) :
  PrimFloat.leb x y = lt x y || strict_eq x y.
Proof.
  unfold lt, strict_eq.
  rewrite FloatAxioms.leb_spec, FloatAxioms.ltb_spec, FloatAxioms.eqb_spec.
  unfold SFleb, SFltb, SFeqb. destruct (SFcompare _ _) as [[]|]; reflexivity.
Qed.

(** A number above 3.5 is not below -3.5. *)
Lemma above_band_not_below (x : number) :
  gt x 3.5%float = true -> lt x (-3.5)%float = false.
Proof.
  unfold gt, lt. rewrite !FloatAxioms.ltb_spec.
  replace (Prim2SF 3.5%float) with (S754_finite false 7881299347898368 (-51))
    by (vm_compute; reflexivity).
  replace (Prim2SF (-3.5)%float) with (S754_finite true 7881299347898368 (-51))
    by (vm_compute; reflexivity).
  destruct (Prim2SF x) as [s|s| |s m e]; try destruct s; simpl; try reflexivity;
    try discriminate.
  all: unfold SFltb; simpl; intros; try discriminate; reflexivity.
Qed.

(** Two numbers that are [===] are both zeros, or the same infinity, or
    the same finite number. *)
Lemma SFeqb_cases (f g : spec_float) :
  SFeqb f g = true ->
  (exists s s', f = S754_zero s /\ g = S754_zero s')
  \/ (exists s, f = S754_infinity s /\ g = S754_infinity s)
  \/ (exists s m e, f = S754_finite s m e /\ g = S754_finite s m e).
Proof.
  unfold SFeqb.
  destruct f as [s|s| |s m e], g as [s'|s'| |s' m' e']; simpl;
    try discriminate; try (destruct s; discriminate);
    try (destruct s'; discriminate).
  - intros _. left. eauto.
  - destruct s, s'; try discriminate; intros _; right; left; eauto.
  - destruct s, s'; try discriminate;
      destruct (e ?= e') eqn:Ee; try discriminate;
      apply Z.compare_eq in Ee; subst e';
      destruct (Pos.compare_cont Eq m m') eqn:Em; try discriminate;
      apply Pcompare_Eq_eq in Em; subst m'; intros _; right; right; eauto.
Qed.

Lemma sub_nullish (x a v : number) :
  strict_eq x v = true -> strict_eq a v = true -> nullish (x - a)%float.
Proof.
  unfold strict_eq. rewrite !FloatAxioms.eqb_spec. intros Hx Ha.
  assert (E : SF64sub (Prim2SF x) (Prim2SF a) = S754_zero false
              \/ SF64sub (Prim2SF x) (Prim2SF a) = S754_zero true
              \/ SF64sub (Prim2SF x) (Prim2SF a) = S754_nan).
  { destruct (SFeqb_cases _ _ Hx)
      as [(s & s' & -> & Ev) | [(s & -> & Ev) | (s & m & e & -> & Ev)]];
      rewrite Ev in Ha;
      destruct (SFeqb_cases _ _ Ha)
        as [(t & t' & -> & Ev') | [(t & -> & Ev') | (t & m' & e' & -> & Ev')]];
      try discriminate.
    - destruct s, t; simpl; auto.
    - injection Ev' as <-. destruct s; simpl; auto.
    - injection Ev' as <- <- <-. left. unfold SF64sub, SFsub.
      rewrite Z.sub_diag. reflexivity. }
  rewrite <- FloatAxioms.sub_spec in E. rewrite <- (SF2Prim_Prim2SF (x - a)).
  destruct E as [-> | [-> | ->]]; vm_compute; auto.
Qed.

Lemma square_nullish (d : number) : nullish d -> zero_or_nan (Math_pow2 d).
Proof. intros [-> | [-> | ->]]; vm_compute; auto. Qed.

Lemma abs_nullish (d : number) : nullish d -> zero_or_nan (Math_abs d).
Proof. intros [-> | [-> | ->]]; vm_compute; auto. Qed.

Lemma add_zero_or_nan (x y : number) :
  zero_or_nan x -> zero_or_nan y -> zero_or_nan (x + y)%float.
Proof. intros [-> | ->] [-> | ->]; vm_compute; auto. Qed.

Lemma sqrt_zero_or_nan (x : number) : zero_or_nan x -> zero_or_nan (Math_sqrt x).
Proof. intros [-> | ->]; vm_compute; auto. Qed.

Lemma div_length_zero_or_nan (x : number) (n : nat) :
  (n <= 5)%nat -> zero_or_nan x -> zero_or_nan (x / of_nat n)%float.
Proof.
  intros Hn Hx.
  do 6 (destruct n as [|n]; [destruct Hx as [-> | ->]; vm_compute; auto|]).
  lia.
Qed.

Lemma gt_zero_or_nan (x y : number) :
  zero_or_nan x -> zero_or_nan y -> gt x y = false.
Proof. intros [-> | ->] [-> | ->]; reflexivity. Qed.

End Binary64.

(** ** The order of binary64 numbers *)

Lemma SFleb_trans (f g h : spec_float) :
  SFleb f g = true -> SFleb g h = true -> SFleb f h = true.
Proof.
  unfold SFleb.
  destruct f as [s1|s1| |s1 m1 e1], g as [s2|s2| |s2 m2 e2], h as [s3|s3| |s3 m3 e3];
    simpl; try discriminate; try reflexivity;
    try destruct s1; try destruct s2; try destruct s3;
    simpl; try discriminate; try reflexivity.
  all: rewrite ?Pos.compare_cont_spec; simpl Pos.switch_Eq.
  all: destruct (Z.compare_spec e1 e2); destruct (Z.compare_spec e2 e3);
       destruct (Z.compare_spec e1 e3);
       try destruct (Pos.compare_spec m1 m2); try destruct (Pos.compare_spec m2 m3);
       try destruct (Pos.compare_spec m1 m3);
       simpl; try discriminate; try reflexivity; try lia.
Qed.

Lemma leb_trans (a b c : number) :
  PrimFloat.leb a b = true -> PrimFloat.leb b c = true -> PrimFloat.leb a c = true.
Proof. rewrite !FloatAxioms.leb_spec. apply SFleb_trans. Qed.

(** How two numbers that are not [NaN] compare, in terms of [<=]. *)
Lemma leb_cases (a b : number) :
  isNaN a = false -> isNaN b = false ->
  (lt a b = true /\ lt b a = false /\ PrimFloat.leb a b = true)
  \/ (lt a b = false /\ lt b a = true /\ PrimFloat.leb b a = true)
  \/ (lt a b = false /\ lt b a = false
      /\ PrimFloat.leb a b = true /\ PrimFloat.leb b a = true).
Proof.
  intros Ha Hb. rewrite !leb_lt_or_eq.
  destruct (compare_cases a b Ha Hb)
    as [(H1 & H2 & H3) | [(H1 & H2 & H3) | (H1 & H2 & H3)]];
  destruct (compare_cases b a Hb Ha)
    as [(K1 & K2 & K3) | [(K1 & K2 & K3) | (K1 & K2 & K3)]];
  unfold gt in *; fold (lt a b) in *; fold (lt b a) in *;
  rewrite ?H1, ?H2, ?K1, ?K2; simpl; try congruence; auto 10.
Qed.

Lemma leb_refl (a : number) : isNaN a = false -> PrimFloat.leb a a = true.
Proof.
  intros Ha.
  destruct (leb_cases a a Ha Ha) as [(_ & _ & H) | [(_ & _ & H) | (_ & _ & H & _)]];
    exact H.
Qed.

Lemma Math_min2_spec (a b : number) :
  isNaN a = false -> isNaN b = false ->
  isNaN (Math_min2 a b) = false
  /\ (Math_min2 a b = a \/ Math_min2 a b = b)
  /\ PrimFloat.leb (Math_min2 a b) a = true
  /\ PrimFloat.leb (Math_min2 a b) b = true.
Proof.
  intros Ha Hb. unfold Math_min2. fold (lt a b). fold (lt b a).
  pose proof (leb_refl a Ha) as Ra. pose proof (leb_refl b Hb) as Rb.
  destruct (leb_cases a b Ha Hb)
    as [(H1 & H2 & H3) | [(H1 & H2 & H3) | (H1 & H2 & H3 & H4)]];
    rewrite H1, ?H2, ?Ha, ?Hb; cbn [orb]; auto.
  destruct (PrimFloat.get_sign a); auto.
Qed.

Lemma Math_max2_spec (a b : number) :
  isNaN a = false -> isNaN b = false ->
  isNaN (Math_max2 a b) = false
  /\ (Math_max2 a b = a \/ Math_max2 a b = b)
  /\ PrimFloat.leb a (Math_max2 a b) = true
  /\ PrimFloat.leb b (Math_max2 a b) = true.
Proof.
  intros Ha Hb. unfold Math_max2. fold (lt a b). fold (lt b a).
  pose proof (leb_refl a Ha) as Ra. pose proof (leb_refl b Hb) as Rb.
  destruct (leb_cases a b Ha Hb)
    as [(H1 & H2 & H3) | [(H1 & H2 & H3) | (H1 & H2 & H3 & H4)]];
    rewrite H1, ?H2, ?Ha, ?Hb; cbn [orb]; auto.
  destruct (PrimFloat.get_sign a); auto.
Qed.

Lemma fold_Math_min2 (values : list number) (acc : number) :
  isNaN acc = false -> Forall (fun v => isNaN v = false) values ->
  let r := fold_left Math_min2 values acc in
  isNaN r = false
  /\ (r = acc \/ In r values)
  /\ PrimFloat.leb r acc = true
  /\ forall v, In v values -> PrimFloat.leb r v = true.
Proof.
  intros Hacc Hv. revert acc Hacc. cbv zeta.
  induction Hv as [|v values Hn Hv IH]; intros acc Hacc; simpl.
  - split; [exact Hacc|]. split; [now left|]. split; [now apply leb_refl|]. intros v [].
  - destruct (Math_min2_spec acc v Hacc Hn) as (Nm & Em & La & Lv).
    destruct (IH _ Nm) as (Nr & Er & Lr & Lall).
    split; [exact Nr|]. split; [|split].
    + destruct Er as [Er|Er]; [|auto]. rewrite Er.
      destruct Em as [->| ->]; auto.
    + now apply leb_trans with (Math_min2 acc v).
    + intros u [<-|Hu]; [now apply leb_trans with (Math_min2 acc v)|now apply Lall].
Qed.

Lemma fold_Math_max2 (values : list number) (acc : number) :
  isNaN acc = false -> Forall (fun v => isNaN v = false) values ->
  let r := fold_left Math_max2 values acc in
  isNaN r = false
  /\ (r = acc \/ In r values)
  /\ PrimFloat.leb acc r = true
  /\ forall v, In v values -> PrimFloat.leb v r = true.
Proof.
  intros Hacc Hv. revert acc Hacc. cbv zeta.
  induction Hv as [|v values Hn Hv IH]; intros acc Hacc; simpl.
  - split; [exact Hacc|]. split; [now left|]. split; [now apply leb_refl|]. intros v [].
  - destruct (Math_max2_spec acc v Hacc Hn) as (Nm & Em & La & Lv).
    destruct (IH _ Nm) as (Nr & Er & Lr & Lall).
    split; [exact Nr|]. split; [|split].
    + destruct Er as [Er|Er]; [|auto]. rewrite Er.
      destruct Em as [->| ->]; auto.
    + now apply leb_trans with (Math_max2 acc v).
    + intros u [<-|Hu]; [now apply leb_trans with (Math_max2 acc v)|now apply Lall].
Qed.

Lemma Math_min2_infinity (v : number) : isNaN v = false -> Math_min2 infinity v = v.
Proof.
  intros Hv. unfold Math_min2.
  assert (H : PrimFloat.ltb infinity v = false).
  { rewrite FloatAxioms.ltb_spec. unfold SFltb.
    replace (Prim2SF infinity) with (S754_infinity false) by reflexivity.
    destruct (Prim2SF v) as [s|s| |s m e]; try destruct s; reflexivity. }
  rewrite H, Hv. destruct (PrimFloat.ltb v infinity); reflexivity.
Qed.

Lemma Math_max2_neg_infinity (v : number) :
  isNaN v = false -> Math_max2 neg_infinity v = v.
Proof.
  intros Hv. unfold Math_max2.
  assert (H : PrimFloat.ltb v neg_infinity = false).
  { rewrite FloatAxioms.ltb_spec. unfold SFltb.
    replace (Prim2SF neg_infinity) with (S754_infinity true) by reflexivity.
    destruct (Prim2SF v) as [s|s| |s m e]; try destruct s; reflexivity. }
  rewrite H, Hv. destruct (PrimFloat.ltb neg_infinity v); reflexivity.
Qed.

(** [Math.min] of numbers that are not [NaN] is one of them and is
    below or equal to each; [Math.max] is one of them and above or
    equal to each. *)
Lemma Math_min_least (values : list number) :
  values <> [] -> Forall (fun v => isNaN v = false) values ->
  In (Math_min values) values
  /\ forall v, In v values -> PrimFloat.leb (Math_min values) v = true.
Proof.
  intros Hne Hv. destruct values as [|v0 values]; [congruence|].
  apply Forall_cons in Hv as [H0 Hv].
  unfold Math_min. cbn [fold_left]. rewrite (Math_min2_infinity v0 H0).
  destruct (fold_Math_min2 values v0 H0 Hv) as (_ & E & L & Lall).
  split; [destruct E as [->|E]; [now left|now right]|].
  intros v [<-|Hin]; auto.
Qed.

Lemma Math_max_greatest (values : list number) :
  values <> [] -> Forall (fun v => isNaN v = false) values ->
  In (Math_max values) values
  /\ forall v, In v values -> PrimFloat.leb v (Math_max values) = true.
Proof.
  intros Hne Hv. destruct values as [|v0 values]; [congruence|].
  apply Forall_cons in Hv as [H0 Hv].
  unfold Math_max. cbn [fold_left]. rewrite (Math_max2_neg_infinity v0 H0).
  destruct (fold_Math_max2 values v0 H0 Hv) as (_ & E & L & Lall).
  split; [destruct E as [->|E]; [now left|now right]|].
  intros v [<-|Hin]; auto.
Qed.

(** ** Rounding of binary64 operations *)

Section Rounding.










End Rounding.

Section Magnitudes.

Local Open Scope R_scope.







End Magnitudes.

Section Operations.

Local Open Scope R_scope.









End Operations.

Section Bounds.

Local Open Scope R_scope.











End Bounds.

Section Chain.

Local Open Scope R_scope.






End Chain.

(** ** The alert engine *)

Lemma alerts_checkForCriticalAlerts (oilClock angleClock : Clock) (st : State) :
  alerts (checkForCriticalAlerts oilClock angleClock st)
  = currentAlerts oilClock angleClock st.
Proof.
  unfold checkForCriticalAlerts.
  destruct (currentAlerts oilClock angleClock st); reflexivity.
Qed.

Lemma currentAlerts_split (oilClock angleClock : Clock) (st : State) :
  let oilLevel := parse_latest (latest_field st "oilLevel") in
  let angle := parse_latest (latest_field st "angle") in
  currentAlerts oilClock angleClock st
  = ((if negb (isNaN oilLevel) && strict_ne oilLevel 20%float
      then [oil_alert oilClock oilLevel] else [])
     ++ (if negb (isNaN angle) && (lt angle (-3.5)%float || gt angle 3.5%float)
         then [angle_alert angleClock angle] else []))%list.
Proof.
  unfold currentAlerts. cbv zeta.
  destruct (negb _ && strict_ne _ _); destruct (negb _ && (_ || _)); reflexivity.
Qed.

Lemma about_oil_currentAlerts (oilClock angleClock : Clock) (st : State) :
  let oilLevel := parse_latest (latest_field st "oilLevel") in
  about "Oil Level" (currentAlerts oilClock angleClock st)
  = if negb (isNaN oilLevel) && strict_ne oilLevel 20%float
    then [oil_alert oilClock oilLevel] else [].
Proof.
  cbv zeta. rewrite currentAlerts_split. unfold about. rewrite List.filter_app.
  destruct (negb _ && strict_ne _ _); destruct (negb _ && (_ || _)); reflexivity.
Qed.

Lemma about_angle_currentAlerts (oilClock angleClock : Clock) (st : State) :
  let angle := parse_latest (latest_field st "angle") in
  about "Angle" (currentAlerts oilClock angleClock st)
  = if negb (isNaN angle) && (lt angle (-3.5)%float || gt angle 3.5%float)
    then [angle_alert angleClock angle] else [].
Proof.
  cbv zeta. rewrite currentAlerts_split. unfold about. rewrite List.filter_app.
  destruct (negb _ && strict_ne _ _); destruct (negb _ && (_ || _)); reflexivity.
Qed.

(** C1.  When the oil level of the latest sample parses as a number, one
    pass of [checkForCriticalAlerts] queues no oil-level alert if the
    level is 20 and exactly one otherwise.  That alert is critical, its
    threshold is "20%", its value is the level rendered by [toFixed(1)],
    and its message and description say LOW / below when the level is
    under 20 and HIGH / above when it is over 20; one of the two is the
    case. *)
Theorem oil_level_rule (oilClock angleClock : Clock) (st : State) :
  let oilLevel := parse_latest (latest_field st "oilLevel") in
  let queued :=
    about "Oil Level" (alerts (checkForCriticalAlerts oilClock angleClock st)) in
  isNaN oilLevel = false ->
  (strict_eq oilLevel 20%float = true -> queued = [])
  /\ (strict_eq oilLevel 20%float = false ->
      exists a,
        queued = [a]
        /\ Alert.severity a = "critical"
        /\ Alert.currentValue a = toFixed oilLevel 1 ++ "%"
        /\ Alert.threshold a = "20%"
        /\ (lt oilLevel 20%float = true \/ gt oilLevel 20%float = true)
        /\ (lt oilLevel 20%float = true ->
            Alert.message a = "🛢️ Oil Level LOW ALERT"
            /\ Alert.description a
               = "Oil level is " ++ toFixed oilLevel 1 ++ "% (below threshold 20%)")
        /\ (gt oilLevel 20%float = true ->
            Alert.message a = "🛢️ Oil Level HIGH ALERT"
            /\ Alert.description a
               = "Oil level is " ++ toFixed oilLevel 1 ++ "% (above threshold 20%)")).
Proof.
  intros oilLevel queued Hnum. subst queued.
  rewrite alerts_checkForCriticalAlerts, about_oil_currentAlerts.
  fold oilLevel. rewrite Hnum. unfold strict_ne. fold (strict_eq oilLevel 20%float).
  assert (H20 : isNaN 20%float = false) by reflexivity.
  destruct (compare_cases oilLevel 20%float Hnum H20)
    as [(Hlt & Heq & Hgt) | [(Hlt & Heq & Hgt) | (Hlt & Heq & Hgt)]];
    rewrite Heq; simpl; split; intros E; try discriminate; try reflexivity.
  - exists (oil_alert oilClock oilLevel). unfold oil_alert. rewrite Hlt. simpl.
    repeat split; auto; congruence.
  - exists (oil_alert oilClock oilLevel). unfold oil_alert. rewrite Hlt. simpl.
    repeat split; auto; congruence.
Qed.

Lemma oil_level_rule_witness :
  isNaN (parse_latest (latest_field (state_of (reading 15 0) [] false) "oilLevel"))
  = false
  /\ exists a,
       about "Oil Level"
         (alerts (checkForCriticalAlerts clock0 clock1
                    (state_of (reading 15 0) [] false))) = [a]
       /\ Alert.severity a = "critical"
       /\ Alert.message a = "🛢️ Oil Level LOW ALERT"
       /\ Alert.currentValue a = "15.0%"
       /\ Alert.threshold a = "20%"
       /\ Alert.description a = "Oil level is 15.0% (below threshold 20%)".
Proof.
  assert (Hnum : isNaN (parse_latest
                   (latest_field (state_of (reading 15 0) [] false) "oilLevel"))
                 = false) by (vm_compute; reflexivity).
  split; [exact Hnum|].
  destruct (oil_level_rule clock0 clock1 _ Hnum) as [_ H].
  destruct H as (a & Hq & Hsev & Hcur & Hthr & _ & Hlow & _);
    [vm_compute; reflexivity|].
  destruct Hlow as [Hmsg Hdesc]; [vm_compute; reflexivity|].
  exists a. repeat split; assumption.
Defined.

(** C2.  When the angle of the latest sample parses as a number, one
    pass of [checkForCriticalAlerts] queues no angle alert if the angle
    lies in the closed interval from -3.5 to 3.5 and exactly one
    otherwise.  That alert is critical, names the band "-3.5° to 3.5°",
    carries the angle rendered by [toFixed(2)], and says LOW when the
    angle is under -3.5 and HIGH when it is over 3.5; one of the two is
    the case. *)
Theorem angle_rule (oilClock angleClock : Clock) (st : State) :
  let angle := parse_latest (latest_field st "angle") in
  let queued :=
    about "Angle" (alerts (checkForCriticalAlerts oilClock angleClock st)) in
  isNaN angle = false ->
  (in_band angle = true -> queued = [])
  /\ (in_band angle = false ->
      exists a,
        queued = [a]
        /\ Alert.severity a = "critical"
        /\ Alert.currentValue a = toFixed angle 2 ++ "°"
        /\ Alert.threshold a = "Normal range: -3.5° to 3.5°"
        /\ (lt angle (-3.5)%float = true \/ gt angle 3.5%float = true)
        /\ (lt angle (-3.5)%float = true ->
            Alert.message a = "📐 Angle LOW ALERT"
            /\ Alert.description a
               = "Angle is " ++ toFixed angle 2 ++ "° (below -3.5° threshold)")
        /\ (gt angle 3.5%float = true ->
            Alert.message a = "📐 Angle HIGH ALERT"
            /\ Alert.description a
               = "Angle is " ++ toFixed angle 2 ++ "° (above 3.5° threshold)")).
Proof.
  intros angle queued Hnum. subst queued.
  rewrite alerts_checkForCriticalAlerts, about_angle_currentAlerts.
  fold angle. rewrite Hnum.
  assert (Hlo : isNaN (-3.5)%float = false) by reflexivity.
  assert (Hhi : isNaN 3.5%float = false) by reflexivity.
  pose proof (above_band_not_below angle) as Hex.
  unfold in_band. rewrite !leb_lt_or_eq.
  destruct (compare_cases (-3.5)%float angle Hlo Hnum)
    as [(A1 & A2 & A3) | [(A1 & A2 & A3) | (A1 & A2 & A3)]];
  destruct (compare_cases angle 3.5%float Hnum Hhi)
    as [(B1 & B2 & B3) | [(B1 & B2 & B3) | (B1 & B2 & B3)]];
  change (gt (-3.5)%float angle) with (lt angle (-3.5)%float) in A3;
  rewrite A1, A2, B1, B2, A3, B3; simpl;
  (split; intros E; try discriminate; try reflexivity).
  all: try (specialize (Hex B3); congruence).
  all: exists (angle_alert angleClock angle); unfold angle_alert; rewrite A3; simpl;
    repeat split; auto; congruence.
Qed.

Lemma angle_rule_witness :
  isNaN (parse_latest (latest_field (state_of (reading 20 (-4)) [] false) "angle"))
  = false
  /\ exists a,
       about "Angle"
         (alerts (checkForCriticalAlerts clock0 clock1
                    (state_of (reading 20 (-4)) [] false))) = [a]
       /\ Alert.severity a = "critical"
       /\ Alert.message a = "📐 Angle LOW ALERT"
       /\ Alert.currentValue a = "-4.00°"
       /\ Alert.threshold a = "Normal range: -3.5° to 3.5°"
       /\ Alert.description a = "Angle is -4.00° (below -3.5° threshold)".
Proof.
  assert (Hnum : isNaN (parse_latest
                   (latest_field (state_of (reading 20 (-4)) [] false) "angle"))
                 = false) by (vm_compute; reflexivity).
  split; [exact Hnum|].
  destruct (angle_rule clock0 clock1 _ Hnum) as [_ H].
  destruct H as (a & Hq & Hsev & Hcur & Hthr & _ & Hlow & _);
    [vm_compute; reflexivity|].
  destruct Hlow as [Hmsg Hdesc]; [vm_compute; reflexivity|].
  exists a. repeat split; assumption.
Defined.

(** The test values of the two rules: an angle of 5.0 is reported HIGH,
    and 20% oil at an angle on either edge of the band raises nothing. *)
Lemma rule_examples :
  map Alert.message
      (alerts (checkForCriticalAlerts clock0 clock1 (state_of (reading 20 5) [] false)))
  = ["📐 Angle HIGH ALERT"]
  /\ alerts (checkForCriticalAlerts clock0 clock1 (state_of (reading 20 3.5) [] false))
     = []
  /\ alerts (checkForCriticalAlerts clock0 clock1 (state_of (reading 20 (-3.5)) [] false))
     = [].
Proof. vm_compute. repeat split; reflexivity. Qed.


(** ** The card indicator *)

(** [parse_latest] is [parseFloat]: [undefined] parses to [NaN]. *)
Lemma parse_latest_parseFloat (raw : value) : parse_latest raw = parseFloat raw.
Proof. destruct raw; reflexivity. Qed.

Lemma getMetricAlert_oil (v : value) :
  getMetricAlert "Oil Level" v
  = if isNaN (parseFloat v) then None else oil_card (parseFloat v).
Proof.
  unfold getMetricAlert. simpl.
  destruct (isNaN (parseFloat v)); [reflexivity|].
  destruct (oil_card (parseFloat v)); reflexivity.
Qed.

Lemma getMetricAlert_angle (v : value) :
  getMetricAlert "Angle" v
  = if isNaN (parseFloat v) then None else angle_card (parseFloat v).
Proof. reflexivity. Qed.

Lemma getMetricAlert_other (metric : string) (v : value) :
  metric <> "Oil Level" -> metric <> "Angle" -> getMetricAlert metric v = None.
Proof.
  intros Ho Ha. unfold getMetricAlert.
  apply String.eqb_neq in Ho, Ha. now rewrite Ho, Ha.
Qed.

(** C7.  [getMetricAlert] decides as the queue does.  Given the value
    the latest sample holds for the oil level, it returns an object
    exactly when a pass of [checkForCriticalAlerts] queues an oil-level
    alert, and then the two carry the same message and description, the
    object being of type "low" with a LOW alert and "high" with a HIGH
    one; the same holds for the angle; for any other metric name there
    is neither an object nor a queued alert. *)
Theorem card_agrees_with_queue (oilClock angleClock : Clock) (st : State) :
  let queue := alerts (checkForCriticalAlerts oilClock angleClock st) in
  let oilCard := getMetricAlert "Oil Level" (latest_field st "oilLevel") in
  let angleCard := getMetricAlert "Angle" (latest_field st "angle") in
  (about "Oil Level" queue = [] <-> oilCard = None)
  /\ (forall a c, In a (about "Oil Level" queue) -> oilCard = Some c ->
        CardAlert.message c = Alert.message a
        /\ CardAlert.description c = Alert.description a
        /\ ((CardAlert.type c = "low"
             /\ Alert.message a = "🛢️ Oil Level LOW ALERT")
            \/ (CardAlert.type c = "high"
                /\ Alert.message a = "🛢️ Oil Level HIGH ALERT")))
  /\ (about "Angle" queue = [] <-> angleCard = None)
  /\ (forall a c, In a (about "Angle" queue) -> angleCard = Some c ->
        CardAlert.message c = Alert.message a
        /\ CardAlert.description c = Alert.description a
        /\ ((CardAlert.type c = "low"
             /\ Alert.message a = "📐 Angle LOW ALERT")
            \/ (CardAlert.type c = "high"
                /\ Alert.message a = "📐 Angle HIGH ALERT")))
  /\ (forall metric v,
        metric <> "Oil Level" -> metric <> "Angle" ->
        getMetricAlert metric v = None /\ about metric queue = []).
Proof.
  cbv zeta. rewrite alerts_checkForCriticalAlerts.
  rewrite about_oil_currentAlerts, about_angle_currentAlerts.
  rewrite getMetricAlert_oil, getMetricAlert_angle, !parse_latest_parseFloat.
  set (oil := parseFloat (latest_field st "oilLevel")).
  set (angle := parseFloat (latest_field st "angle")).
  assert (H20 : isNaN 20%float = false) by reflexivity.
  split; [|split; [|split; [|split]]].
  - destruct (isNaN oil) eqn:Hnum; simpl; [tauto|].
    unfold oil_card, strict_ne. fold (strict_eq oil 20%float).
    destruct (compare_cases oil 20%float Hnum H20)
      as [(Hlt & Heq & Hgt) | [(Hlt & Heq & Hgt) | (Hlt & Heq & Hgt)]];
      rewrite ?Heq, ?Hlt, ?Hgt; simpl; split; congruence.
  - intros a c. destruct (isNaN oil) eqn:Hnum; simpl; [tauto|].
    unfold oil_card, strict_ne. fold (strict_eq oil 20%float).
    destruct (compare_cases oil 20%float Hnum H20)
      as [(Hlt & Heq & Hgt) | [(Hlt & Heq & Hgt) | (Hlt & Heq & Hgt)]];
      rewrite ?Heq, ?Hlt, ?Hgt; simpl; try tauto; try congruence.
    all: intros [<-|[]] [= <-]; unfold oil_alert; rewrite Hlt; simpl; auto.
  - destruct (isNaN angle) eqn:Hnum; simpl; [tauto|].
    unfold angle_card.
    destruct (lt angle (-3.5)%float); simpl; [split; congruence|].
    destruct (gt angle 3.5%float); simpl; split; congruence.
  - intros a c. destruct (isNaN angle) eqn:Hnum; simpl; [tauto|].
    unfold angle_card.
    destruct (lt angle (-3.5)%float) eqn:Hlt; simpl.
    + intros [<-|[]] [= <-]; unfold angle_alert; rewrite Hlt; simpl; auto.
    + destruct (gt angle 3.5%float); simpl; [|tauto].
      intros [<-|[]] [= <-]; unfold angle_alert; rewrite Hlt; simpl; auto.
  - intros metric v Ho Ha. split; [now apply getMetricAlert_other|].
    rewrite currentAlerts_split. unfold about. rewrite List.filter_app.
    assert (Eo : String.eqb "Oil Level" metric = false)
      by (apply String.eqb_neq; congruence).
    assert (Ea : String.eqb "Angle" metric = false)
      by (apply String.eqb_neq; congruence).
    destruct (negb _ && strict_ne _ _); destruct (negb _ && (_ || _));
      unfold oil_alert, angle_alert; cbn [List.filter app Alert.metric];
      rewrite ?Eo, ?Ea; reflexivity.
Qed.

(** What a card of the running component shows can still differ from
    the queue, because [MetricCard] hands [getMetricAlert] the latest
    value already rendered to one decimal place: at 20.04 the queue
    holds an oil-level alert and the card shows none. *)
Lemma card_alert_rounds_first :
  let st := state_of (reading 20.04 0) [] false in
  about "Oil Level" (alerts (checkForCriticalAlerts clock0 clock0 st))
  = [oil_alert clock0 20.04%float]
  /\ card_alert "Oil Level" "oilLevel" st = None.
Proof. vm_compute. split; reflexivity. Qed.

(** ** Dismissing alerts *)

Lemma filter_sublist {A} (p : A -> bool) (l : list A) :
  sublist (List.filter p l) l.
Proof.
  induction l as [|x l IH]; simpl.
  - constructor.
  - destruct (p x); [now apply sublist_skip | now apply sublist_cons].
Qed.

Lemma filter_all {A} (p : A -> bool) (l : list A) :
  (forall x, In x l -> p x = true) -> List.filter p l = l.
Proof.
  induction l as [|x l IH]; simpl; intros H; [reflexivity|].
  rewrite (H x) by now left. f_equal. apply IH. intros y Hy. apply H. now right.
Qed.

(** C10.  [dismissAlert] keeps every alert whose id differs from the
    identifier, as it is and in the order of the queue: the new queue is
    a subsequence of the old one, it holds every alert of the old queue
    whose id differs and no other, the alerts that went are as many as
    those whose id is the identifier, and when no id is the identifier
    the queue is the same list.  The series and the latest sample are
    not touched. *)
Theorem dismissAlert_frame (alertId : value) (st : State) :
  let st' := dismissAlert alertId st in
  let matching :=
    List.filter (fun a => string_strict_eq (Alert.id a) alertId) (alerts st) in
  sublist (alerts st') (alerts st)
  /\ (forall a, In a (alerts st) ->
        string_strict_eq (Alert.id a) alertId = false -> In a (alerts st'))
  /\ (forall a, In a (alerts st') ->
        In a (alerts st) /\ string_strict_eq (Alert.id a) alertId = false)
  /\ (length (alerts st') + length matching = length (alerts st))%nat
  /\ (matching = [] -> alerts st' = alerts st)
  /\ data st' = data st
  /\ latestValues st' = latestValues st.
Proof.
  cbv zeta. unfold dismissAlert; simpl.
  split; [apply filter_sublist|].
  split; [|split; [|split; [|split; [|split; reflexivity]]]].
  - intros a Ha Hid. apply List.filter_In. split; [exact Ha|]. now rewrite Hid.
  - intros a Ha. apply List.filter_In in Ha as [Ha Hid].
    split; [exact Ha|]. now apply negb_true_iff in Hid.
  - rewrite Nat.add_comm. apply List.filter_length.
  - intros Hnone. apply filter_all. intros a Ha.
    destruct (string_strict_eq (Alert.id a) alertId) eqn:E; [|reflexivity].
    assert (Hin : In a (List.filter
              (fun a => string_strict_eq (Alert.id a) alertId) (alerts st)))
      by (apply List.filter_In; auto).
    rewrite Hnone in Hin. destruct Hin.
Qed.

(** Dismiss-all empties the queue and closes the modal. *)
Lemma dismissAllAlerts_clears (st : State) :
  alerts (dismissAllAlerts st) = [] /\ showAlertModal (dismissAllAlerts st) = false.
Proof. split; reflexivity. Qed.

(** The modal flag after [dismissAlert] depends on the length of the
    queue before the removal only. *)
Lemma dismissAlert_modal (alertId : value) (st : State) :
  showAlertModal (dismissAlert alertId st)
  = if (length (alerts st) <=? 1)%nat then false else showAlertModal st.
Proof. reflexivity. Qed.

(** C6.  With one alert queued and the modal open, dismissing an
    identifier that is the id of no queued alert (the index 0 that the
    dismiss button passes, or the id of another alert) leaves the alert
    in the queue and still closes the modal. *)
Theorem dismissAlert_closes_modal_on_unmatched_id :
  let a := oil_alert clock0 15%float in
  let st := state_of (reading 15 0) [a] true in
  Alert.id a = "oil-17300000000000.25"
  /\ alerts (dismissAlert (VNumber 0%float) st) = [a]
  /\ showAlertModal (dismissAlert (VNumber 0%float) st) = false
  /\ alerts (dismissAlert (VString "angle-17300000000000.25") st) = [a]
  /\ showAlertModal (dismissAlert (VString "angle-17300000000000.25") st) = false.
Proof. vm_compute. repeat split; reflexivity. Qed.

(** ** The trend classifier *)

(** The multiplier is one of the four values of the table. *)
Lemma multiplier_cases (metric : string) :
  multiplier metric = 2.0%float \/ multiplier metric = 1.5%float
  \/ multiplier metric = 2.5%float \/ multiplier metric = 1.2%float.
Proof.
  unfold multiplier. destruct (thresholds !! metric) as [x|] eqn:E.
  - apply elem_of_list_to_map_2 in E.
    repeat (apply elem_of_cons in E as [E|E];
            [injection E as _ ->; vm_compute; auto|]).
    now apply elem_of_nil in E.
  - vm_compute; auto.
Qed.

Lemma scale_zero_or_nan (metric : string) (x : number) :
  zero_or_nan x -> zero_or_nan (multiplier metric * x)%float.
Proof.
  intros Hx.
  destruct (multiplier_cases metric) as [-> | [-> | [-> | ->]]];
    destruct Hx as [-> | ->]; vm_compute; auto.
Qed.

Lemma sum_squares_zero_or_nan (a : number) (w : list number) (acc : number) :
  Forall (fun n => nullish (n - a)%float) w ->
  zero_or_nan acc ->
  zero_or_nan (fold_left (fun sq n => sq + Math_pow2 (n - a))%float w acc).
Proof.
  intros Hw. revert acc.
  induction Hw as [|n w Hn Hw IH]; intros acc Hacc; simpl.
  - exact Hacc.
  - apply IH. apply add_zero_or_nan; [exact Hacc | now apply square_nullish].
Qed.


(** A window whose deviations from the computed mean are all zeros or
    [NaN] is not abnormal: the standard deviation is [+0] or [NaN], and
    so are the two sides of the comparison. *)
Lemma nullish_deviations_not_abnormal (w : list number) (metric : string) :
  (0 < length w <= 5)%nat ->
  Forall (fun n => nullish (n - avgValue w)%float) w ->
  isAbnormal_of w metric = false.
Proof.
  intros Hlen Hdev.
  unfold isAbnormal_of. apply gt_zero_or_nan.
  - apply abs_nullish. unfold last_value, index.
    rewrite Forall_forall in Hdev. apply Hdev.
    apply list_elem_of_In, nth_In. lia.
  - apply scale_zero_or_nan. unfold stdDev. apply sqrt_zero_or_nan.
    apply div_length_zero_or_nan; [lia|].
    apply sum_squares_zero_or_nan; [exact Hdev | now left].
Qed.

(** A flat window whose computed mean is [===] to the common value is
    not abnormal. *)
Lemma flat_not_abnormal (w : list number) (metric : string) (v : number) :
  (0 < length w <= 5)%nat ->
  flat w v -> strict_eq (avgValue w) v = true ->
  isAbnormal_of w metric = false.
Proof.
  intros Hlen Hflat Havg.
  apply nullish_deviations_not_abnormal; [exact Hlen|].
  eapply Forall_impl; [exact Hflat|]. intros n Hn. simpl in Hn.
  now apply sub_nullish with v.
Qed.





Section Spread.

Local Open Scope R_scope.







End Spread.

Section Range.

Local Open Scope R_scope.







End Range.

Section Windows.

Local Open Scope R_scope.









End Windows.


Section TwoSided.

Local Open Scope R_scope.





End TwoSided.

Section Near.

Local Open Scope R_scope.





End Near.

Section Mean.

Local Open Scope R_scope.





End Mean.

Section Structure.

Local Open Scope R_scope.




End Structure.










(** In that window the common value is smaller than 2^-400 and the
    square of its deviation from the mean underflows to zero. *)
Lemma flat_tiny_window_square_vanishes :
  let data := series "temperature" [5e-200; 5e-200; 5e-200; 5e-200; 5e-200]%float in
  tiny 5e-200%float = true
  /\ squared_deviation_vanishes (recentValues data "temperature") = true.
Proof. vm_compute. split; reflexivity. Qed.

(** The flat window of the specification's own test: five readings of
    20 give the stable list of the catalog. *)
Lemma flat_window_20_stable :
  analyzeTrend (series "temperature" [20; 20; 20; 20; 20]%float) "temperature"
  = Some {| trend := 0%float;
            isAbnormal := false;
            suggestion :=
              [ "✅ Temperature is within safe range.";
                "1. Continue monitoring thermal trends";
                "2. Schedule preventive HVAC maintenance" ];
            rateOfChange := "0.0%/hour" |}.
Proof. vm_compute. reflexivity. Qed.

(** C4.  On the oil levels of the fallback data set (first windowed
    value 0, last 100) the rate of change is a division by zero and the
    returned label is "Infinity%/hour"; on a window of two zeros it is
    "NaN%/hour".  In the first case the window is abnormal and the
    predictive sentence is built from the infinite rate. *)
Theorem rateOfChange_not_finite_on_zero_first :
  (rateOfChange <$> analyzeTrend fallback_oil "oilLevel") = Some "Infinity%/hour"
  /\ (rateOfChange <$> analyzeTrend (series "oilLevel" [0; 0]%float) "oilLevel")
     = Some "NaN%/hour"
  /\ (suggestion <$> analyzeTrend fallback_oil "oilLevel")
     = Some [ "🛢️ High oil level detected. Risk of leakage.";
              "1. Check for overfilling conditions";
              "2. Inspect seals and gaskets";
              "3. Verify oil pressure readings";
              "Oil maintenance may be needed in 0.0 hours." ].
Proof. vm_compute. repeat split; reflexivity. Qed.

(** The defect is not tied to one series: whenever the first windowed
    value is 0 and the last one is a positive finite number, the label
    is "Infinity%/hour". *)
Lemma zero_first_gives_Infinity
    (data : list Sample) (metric : string) (x : number) (m : positive) (e : Z) :
  (2 <= length data)%nat ->
  first_value (recentValues data metric) = 0%float ->
  last_value (recentValues data metric) = x ->
  Prim2SF x = S754_finite false m e ->
  (rateOfChange <$> analyzeTrend data metric) = Some "Infinity%/hour".
Proof.
  intros Hlen Hfirst Hlast Hx. unfold analyzeTrend.
  destruct (length data <? 2)%nat eqn:E; [apply Nat.ltb_lt in E; lia|].
  simpl. unfold rateOfChange_of. rewrite Hfirst, Hlast.
  assert (Hsub : (x - 0)%float = x).
  { apply Prim2SF_inj. rewrite FloatAxioms.sub_spec, Hx. reflexivity. }
  assert (Hdiv : (x / 0)%float = infinity).
  { rewrite <- (SF2Prim_Prim2SF (x / 0)). rewrite FloatAxioms.div_spec, Hx.
    reflexivity. }
  rewrite Hsub, Hdiv. vm_compute. reflexivity.
Qed.

(** C8 as stated fails.  On the window 10, 15 of temperatures the label
    is "50.0%/hour" and the rate is over 10, but the predictive sentence
    is not in the returned suggestion list. *)
Lemma window_10_15_no_predictive_sentence :
  let data := series "temperature" [10; 15]%float in
  exists r,
    analyzeTrend data "temperature" = Some r
    /\ rateOfChange r = "50.0%/hour"
    /\ gt (Math_abs (rateOfChange_of (recentValues data "temperature"))) 10%float = true
    /\ predictive_sentence "temperature" (rateOfChange_of (recentValues data "temperature"))
       = "Temperature trends indicate potential issues in 48.0 hours."
    /\ ~ In "Temperature trends indicate potential issues in 48.0 hours."
            (suggestion r).
Proof.
  cbv zeta. eexists. split; [reflexivity|].
  split; [vm_compute; reflexivity|].
  split; [vm_compute; reflexivity|].
  split; [vm_compute; reflexivity|].
  vm_compute. intros [H|[H|[H|[]]]]; discriminate H.
Qed.

Lemma window_10_15_facts (metric : string) :
  let w := [10; 15]%float in
  isAbnormal_of w metric = false
  /\ toFixed (rateOfChange_of w) 1 ++ "%/hour" = "50.0%/hour"
  /\ trend_of w = 5%float.
Proof.
  cbv zeta. split; [|split; vm_compute; reflexivity].
  unfold isAbnormal_of.
  replace (stdDev [10; 15]%float) with 2.5%float by (vm_compute; reflexivity).
  replace (Math_abs (last_value [10; 15] - avgValue [10; 15])%float)
    with 2.5%float by (vm_compute; reflexivity).
  destruct (multiplier_cases metric) as [-> | [-> | [-> | ->]]]; reflexivity.
Qed.

(** The stable list of a metric never holds the predictive sentence of
    a 50% rate. *)
Lemma stable_list_has_no_prediction (metric : string) :
  ~ In (predictive_sentence metric 50%float)
       (default ["✅ " ++ metric ++ " levels are stable."]
                (stable <$> insights !! metric)).
Proof.
  unfold predictive_sentence.
  destruct (insights !! metric) as [e|] eqn:E.
  - apply elem_of_list_to_map_2 in E.
    repeat (apply elem_of_cons in E as [E|E];
            [injection E as -> ->; vm_compute;
             intros [H|[H|[H|[]]]]; discriminate H|]).
    now apply elem_of_nil in E.
  - simpl. intros [H|[]]. discriminate H.
Qed.

(** C8, as amended.  On a series whose values for the metric are 10 and
    15, [analyzeTrend] returns the label "50.0%/hour" and the trend 5;
    the window is not abnormal for any metric (the deviation 2.5 of the
    last value does not exceed a multiple, by 1.2 or more, of the
    standard deviation 2.5), so the suggestion list is the stable list
    of the metric and the predictive sentence is not in it. *)
Theorem window_10_15_rate_without_prediction (data : list Sample) (metric : string) :
  values data metric = [10; 15]%float ->
  exists r,
    analyzeTrend data metric = Some r
    /\ rateOfChange r = "50.0%/hour"
    /\ trend r = 5%float
    /\ isAbnormal r = false
    /\ suggestion r
       = default ["✅ " ++ metric ++ " levels are stable."]
                 (stable <$> insights !! metric)
    /\ ~ In (predictive_sentence metric (rateOfChange_of (recentValues data metric)))
            (suggestion r).
Proof.
  intros Hv.
  assert (Hlen : length data = 2%nat).
  { apply (f_equal (@length _)) in Hv. unfold values in Hv.
    now rewrite length_map in Hv. }
  assert (Hw : recentValues data metric = [10; 15]%float).
  { unfold recentValues. rewrite Hv. reflexivity. }
  destruct (window_10_15_facts metric) as (Hab & Hrate & Htrend).
  unfold analyzeTrend. rewrite Hlen. simpl (2 <? 2)%nat. cbv iota zeta.
  eexists. split; [reflexivity|]. cbn [rateOfChange trend isAbnormal suggestion].
  rewrite Hw. unfold suggestion_of. rewrite Hab.
  replace (rateOfChange_of [10; 15]%float) with 50%float by (vm_compute; reflexivity).
  repeat split; try assumption. apply stable_list_has_no_prediction.
Qed.

Lemma window_10_15_rate_without_prediction_witness :
  values (series "power" [10; 15]%float) "power" = [10; 15]%float
  /\ exists r,
       analyzeTrend (series "power" [10; 15]%float) "power" = Some r
       /\ rateOfChange r = "50.0%/hour"
       /\ trend r = 5%float
       /\ isAbnormal r = false
       /\ suggestion r
          = default ["✅ " ++ "power" ++ " levels are stable."]
                    (stable <$> insights !! "power")
       /\ ~ In (predictive_sentence "power"
                 (rateOfChange_of (recentValues (series "power" [10; 15]%float) "power")))
               (suggestion r).
Proof.
  assert (H : values (series "power" [10; 15]%float) "power" = [10; 15]%float)
    by (vm_compute; reflexivity).
  split; [exact H|].
  exact (window_10_15_rate_without_prediction _ _ H).
Defined.

(** ** The statistics aggregator *)

(** The [forEach] over metrics with distinct capitalised names writes
    the entry of each metric that has numeric values under its name and
    nothing else. *)
Lemma fold_add_statistics (data : list Sample) (l : Sample) (ms : list string) :
  NoDup (map capitalize ms) ->
  forall acc, exists stats,
    fold_left (add_statistics data (Some l)) ms (Some acc) = Some stats
    /\ (forall m, In m ms ->
          stats !! capitalize m
          = if (0 <? length (numeric_values data m))%nat
            then Some (statistics_of data l m)
            else acc !! capitalize m)
    /\ (forall k, ~ In k (map capitalize ms) -> stats !! k = acc !! k).
Proof.
  induction ms as [|m0 ms IH]; intros Hnd acc.
  - exists acc. split; [reflexivity|]. split; [intros m []|reflexivity].
  - apply NoDup_cons in Hnd as [Hnotin Hnd].
    rewrite list_elem_of_In in Hnotin.
    cbn [fold_left add_statistics].
    set (acc' := if (0 <? length (numeric_values data m0))%nat
                 then <[ capitalize m0 := statistics_of data l m0 ]> acc
                 else acc).
    assert (Hstep : (if (0 <? length (numeric_values data m0))%nat
                     then Some (<[ capitalize m0 := statistics_of data l m0 ]> acc)
                     else Some acc) = Some acc')
      by (subst acc'; destruct (0 <? _)%nat; reflexivity).
    rewrite Hstep.
    destruct (IH Hnd acc') as (stats & Hfold & Hin & Hout).
    exists stats. split; [exact Hfold|]. split.
    + intros m [<- | Hm].
      * rewrite (Hout _ Hnotin). subst acc'.
        destruct (0 <? _)%nat; [apply lookup_insert_eq|reflexivity].
      * rewrite (Hin m Hm).
        destruct (0 <? length (numeric_values data m))%nat; [reflexivity|].
        assert (capitalize m0 <> capitalize m).
        { intros E. apply Hnotin. rewrite E. now apply in_map. }
        subst acc'.
        destruct (0 <? _)%nat; [now apply lookup_insert_ne|reflexivity].
    + intros k Hk. cbn [map In] in Hk. rewrite Hout by tauto. subst acc'.
      destruct (0 <? _)%nat; [|reflexivity].
      apply lookup_insert_ne. tauto.
Qed.

Lemma numeric_values_not_NaN (data : list Sample) (metric : string) :
  Forall (fun v => isNaN v = false) (numeric_values data metric).
Proof.
  apply Forall_forall. intros v Hv. apply list_elem_of_In in Hv.
  apply List.filter_In in Hv as [_ Hv]. now apply negb_true_iff in Hv.
Qed.



(** * Further properties of the component *)

(** ** The trend classifier beyond the window rules *)

Lemma slice_last_app {A} (n : nat) (older recent : list A) :
  (n <= length recent)%nat ->
  slice_last n (older ++ recent)%list = slice_last n recent.
Proof.
  intros Hn. unfold slice_last. rewrite length_app, skipn_app.
  rewrite skipn_all2 by lia. simpl. f_equal. lia.
Qed.

(** X1.  [analyzeTrend] reads the last five samples only: samples older
    than the last five (or more) do not change what it returns. *)
Theorem analyzeTrend_last_five
    (older recent : list Sample) (metric : string) :
  (5 <= length recent)%nat ->
  analyzeTrend (older ++ recent) metric = analyzeTrend recent metric.
Proof.
  intros Hlen. unfold analyzeTrend, recentValues, values.
  rewrite map_app, slice_last_app by (rewrite length_map; lia).
  rewrite length_app.
  destruct (length older + length recent <? 2)%nat eqn:E1;
    [apply Nat.ltb_lt in E1; lia|].
  destruct (length recent <? 2)%nat eqn:E2;
    [apply Nat.ltb_lt in E2; lia|].
  reflexivity.
Qed.

Lemma analyzeTrend_last_five_witness :
  (5 <= length (series "power" [5; 4; 3; 2; 1]%float))%nat
  /\ analyzeTrend (series "power" [900; 800]%float
                   ++ series "power" [5; 4; 3; 2; 1]%float) "power"
     = analyzeTrend (series "power" [5; 4; 3; 2; 1]%float) "power".
Proof.
  assert (H : (5 <= length (series "power" [5; 4; 3; 2; 1]%float))%nat)
    by (simpl; lia).
  split; [exact H|].
  exact (analyzeTrend_last_five _ _ "power" H).
Defined.

(** A number that is [NaN] is the one [NaN] of the model. *)
Lemma isNaN_true_nan (x : number) : isNaN x = true -> x = nan.
Proof.
  unfold isNaN, is_nan. rewrite FloatAxioms.eqb_spec. intros H.
  rewrite <- (SF2Prim_Prim2SF x).
  destruct (Prim2SF x) as [s|s| |s m e]; try reflexivity; exfalso;
    unfold SFeqb in H; simpl in H.
  - discriminate.
  - destruct s; discriminate.
  - rewrite Z.compare_refl, Pos.compare_cont_refl in H. destruct s; discriminate.
Qed.

Lemma map_all_nan {A} (f : A -> number) (l : list A) :
  (forall a, In a l -> isNaN (f a) = true) -> map f l = repeat nan (length l).
Proof.
  induction l as [|a l IH]; intros H; simpl; [reflexivity|].
  rewrite (isNaN_true_nan (f a)) by (apply H; now left).
  f_equal. apply IH. intros b Hb. apply H. now right.
Qed.

Lemma slice_last_repeat {A} (n k : nat) (x : A) :
  slice_last n (repeat x k) = repeat x (Nat.min n k).
Proof.
  unfold slice_last. rewrite repeat_length.
  replace k with ((k - n) + Nat.min n k)%nat at 2 by lia.
  rewrite repeat_app, skipn_app, repeat_length.
  rewrite skipn_all2 by (rewrite repeat_length; lia).
  replace (k - n - (k - n))%nat with 0%nat by lia. reflexivity.
Qed.

Lemma lt_nan_r (x : number) : PrimFloat.ltb x nan = false.
Proof.
  rewrite FloatAxioms.ltb_spec. unfold SFltb.
  replace (Prim2SF nan) with S754_nan by reflexivity.
  destruct (Prim2SF x); reflexivity.
Qed.

Lemma mul_nan_r (metric : string) : (multiplier metric * nan)%float = nan.
Proof.
  destruct (multiplier_cases metric) as [-> | [-> | [-> | ->]]]; reflexivity.
Qed.

(** X2.  When the metric reads as no number in any sample (the field is
    missing, [null] or not numeric), [analyzeTrend] on two samples or
    more returns an insight that is not abnormal, with the trend [NaN],
    the label "NaN%/hour" and the stable list of the metric. *)
Theorem analyzeTrend_without_numbers (data : list Sample) (metric : string) :
  (2 <= length data)%nat ->
  (forall item, In item data -> isNaN (parseFloat (get item metric)) = true) ->
  analyzeTrend data metric
  = Some {| trend := nan;
            isAbnormal := false;
            suggestion := default ["✅ " ++ metric ++ " levels are stable."]
                                  (stable <$> insights !! metric);
            rateOfChange := "NaN%/hour" |}.
Proof.
  intros Hlen Hnan. unfold analyzeTrend.
  destruct (length data <? 2)%nat eqn:E; [apply Nat.ltb_lt in E; lia|].
  assert (Hw : exists n, recentValues data metric = repeat nan (S (S n)) /\ (n <= 3)%nat).
  { unfold recentValues, values. rewrite (map_all_nan _ _ Hnan), slice_last_repeat.
    exists (Nat.min 5 (length data) - 2)%nat. split; [f_equal|]; lia. }
  destruct Hw as (n & Hw & Hn). cbv zeta. rewrite Hw.
  assert (Hab : isAbnormal_of (repeat nan (S (S n))) metric = false).
  { unfold isAbnormal_of, gt.
    replace (stdDev (repeat nan (S (S n)))) with nan
      by (do 4 (destruct n as [|n]; [reflexivity|]); lia).
    rewrite mul_nan_r.
    replace (Math_abs (last_value (repeat nan (S (S n)))
                       - avgValue (repeat nan (S (S n))))%float) with nan
      by (do 4 (destruct n as [|n]; [reflexivity|]); lia).
    reflexivity. }
  unfold suggestion_of. rewrite Hab.
  replace (trend_of (repeat nan (S (S n)))) with nan
    by (do 4 (destruct n as [|n]; [reflexivity|]); lia).
  replace (rateOfChange_of (repeat nan (S (S n)))) with nan
    by (do 4 (destruct n as [|n]; [reflexivity|]); lia).
  reflexivity.
Qed.

Lemma analyzeTrend_without_numbers_witness :
  (2 <= length (series "oilLevel" [1; 2; 3]%float))%nat
  /\ (forall item, In item (series "oilLevel" [1; 2; 3]%float) ->
        isNaN (parseFloat (get item "pressure")) = true)
  /\ analyzeTrend (series "oilLevel" [1; 2; 3]%float) "pressure"
     = Some {| trend := nan;
               isAbnormal := false;
               suggestion := ["✅ pressure levels are stable."];
               rateOfChange := "NaN%/hour" |}.
Proof.
  assert (H1 : (2 <= length (series "oilLevel" [1; 2; 3]%float))%nat)
    by (simpl; lia).
  assert (H2 : forall item, In item (series "oilLevel" [1; 2; 3]%float) ->
                 isNaN (parseFloat (get item "pressure")) = true).
  { intros item [<- | [<- | [<- | []]]]; vm_compute; reflexivity. }
  split; [exact H1|]. split; [exact H2|].
  exact (analyzeTrend_without_numbers _ "pressure" H1 H2).
Defined.

(** Every catalog entry opens its stable list with a confirmation and
    its high and low lists with a warning. *)
Lemma catalog_headlines (metric : string) (e : Insight) :
  insights !! metric = Some e ->
  exists h hs l ls s ss,
    high e = h :: hs /\ low e = l :: ls /\ stable e = s :: ss
    /\ confirms h = false /\ confirms l = false /\ confirms s = true.
Proof.
  intros E. apply elem_of_list_to_map_2 in E.
  repeat (apply elem_of_cons in E as [E|E];
          [injection E as -> ->; do 6 eexists; repeat split; reflexivity|]).
  now apply elem_of_nil in E.
Qed.

(** X3.  The suggestion list [analyzeTrend] returns is never empty, and
    its headline agrees with the abnormal flag: it opens with the
    confirmation mark exactly when the window is not abnormal, for the
    eight metrics of the catalog and for any other metric name. *)
Theorem headline_agrees_with_flag
    (data : list Sample) (metric : string) (r : TrendInsight) :
  analyzeTrend data metric = Some r ->
  exists headline rest,
    suggestion r = headline :: rest
    /\ confirms headline = negb (isAbnormal r).
Proof.
  unfold analyzeTrend. destruct (length data <? 2)%nat; [discriminate|].
  intros [= <-]. cbn [suggestion isAbnormal]. unfold suggestion_of.
  set (w := recentValues data metric).
  destruct (insights !! metric) as [e|] eqn:E.
  - destruct (catalog_headlines metric e E)
      as (h & hs & l & ls & s & ss & Hh & Hl & Hs & Ch & Cl & Cs).
    cbn [fmap option_fmap option_map default].
    destruct (isAbnormal_of w metric); [|rewrite Hs; eauto].
    destruct (gt (trend_of w) 0%float);
      destruct (gt (Math_abs (rateOfChange_of w)) 10%float);
      rewrite ?Hh, ?Hl; cbn [app]; eauto.
  - cbn [fmap option_fmap option_map default].
    destruct (isAbnormal_of w metric); [|eexists; eexists; split; reflexivity].
    destruct (gt (trend_of w) 0%float);
      destruct (gt (Math_abs (rateOfChange_of w)) 10%float);
      cbn [app]; eexists; eexists; split; reflexivity.
Qed.

Lemma headline_agrees_with_flag_witness :
  analyzeTrend (series "angle" [1; 1; 1; 1; 9]%float) "angle"
  = Some {| trend := 8%float;
            isAbnormal := true;
            suggestion :=
              [ "📐 High angle deviation detected.";
                "1. Check mechanical alignment";
                "2. Inspect mounting brackets";
                "3. Verify sensor calibration";
                "Alignment check recommended in 3.0 hours." ];
            rateOfChange := "800.0%/hour" |}
  /\ exists headline rest,
       [ "📐 High angle deviation detected.";
         "1. Check mechanical alignment";
         "2. Inspect mounting brackets";
         "3. Verify sensor calibration";
         "Alignment check recommended in 3.0 hours." ] = headline :: rest
       /\ confirms headline = negb true.
Proof.
  assert (H : analyzeTrend (series "angle" [1; 1; 1; 1; 9]%float) "angle"
              = Some {| trend := 8%float;
                        isAbnormal := true;
                        suggestion :=
                          [ "📐 High angle deviation detected.";
                            "1. Check mechanical alignment";
                            "2. Inspect mounting brackets";
                            "3. Verify sensor calibration";
                            "Alignment check recommended in 3.0 hours." ];
                        rateOfChange := "800.0%/hour" |})
    by (vm_compute; reflexivity).
  split; [exact H|].
  exact (headline_agrees_with_flag _ _ _ H).
Defined.

(** ** The alert queue over several events *)

(** X4.  Dismissing does not silence a condition that persists: a pass
    of [checkForCriticalAlerts] after [dismissAlert] or
    [dismissAllAlerts] queues what it would have queued without the
    dismissal, and reopens the modal when that queue is not empty. *)
Theorem evaluation_after_dismissal
    (oilClock angleClock : Clock) (alertId : value) (st : State) :
  let fresh := checkForCriticalAlerts oilClock angleClock st in
  let afterOne := checkForCriticalAlerts oilClock angleClock (dismissAlert alertId st) in
  let afterAll := checkForCriticalAlerts oilClock angleClock (dismissAllAlerts st) in
  alerts afterOne = alerts fresh
  /\ alerts afterAll = alerts fresh
  /\ (alerts fresh <> [] ->
      showAlertModal afterOne = true /\ showAlertModal afterAll = true).
Proof.
  cbv zeta.
  assert (E1 : currentAlerts oilClock angleClock (dismissAlert alertId st)
               = currentAlerts oilClock angleClock st) by reflexivity.
  assert (E2 : currentAlerts oilClock angleClock (dismissAllAlerts st)
               = currentAlerts oilClock angleClock st) by reflexivity.
  rewrite !alerts_checkForCriticalAlerts, E1, E2.
  split; [reflexivity|]. split; [reflexivity|].
  intros Hne. unfold checkForCriticalAlerts. rewrite E1, E2.
  destruct (currentAlerts oilClock angleClock st); [congruence|].
  split; reflexivity.
Qed.

(** The identifiers of the two rules never coincide. *)
Lemma oil_id_not_angle_id (c c' : Clock) (x y : number) :
  Alert.id (oil_alert c x) <> Alert.id (angle_alert c' y).
Proof. simpl. discriminate. Qed.

(** X5.  After a pass of [checkForCriticalAlerts] the queue holds at
    most two alerts, all critical, about the oil level or the angle, at
    most one about each, with identifiers that differ from one
    another. *)
Theorem queue_shape (oilClock angleClock : Clock) (st : State) :
  let queue := alerts (checkForCriticalAlerts oilClock angleClock st) in
  (length queue <= 2)%nat
  /\ NoDup (map Alert.id queue)
  /\ NoDup (map Alert.metric queue)
  /\ forall a, In a queue ->
       Alert.severity a = "critical"
       /\ (Alert.metric a = "Oil Level" \/ Alert.metric a = "Angle").
Proof.
  cbv zeta. rewrite alerts_checkForCriticalAlerts, currentAlerts_split.
  pose proof (oil_id_not_angle_id oilClock angleClock
                (parse_latest (latest_field st "oilLevel"))
                (parse_latest (latest_field st "angle"))) as Hid.
  assert (Hm : Alert.metric (oil_alert oilClock (parse_latest (latest_field st "oilLevel")))
               <> Alert.metric (angle_alert angleClock (parse_latest (latest_field st "angle"))))
    by (simpl; discriminate).
  destruct (negb _ && strict_ne _ _); destruct (negb _ && (_ || _));
    cbn [app length map]; (split; [lia|]).
  - split; [|split].
    + apply NoDup_cons_2; [|apply NoDup_singleton]. rewrite list_elem_of_In.
      intros [E|[]]. now apply Hid.
    + apply NoDup_cons_2; [|apply NoDup_singleton]. rewrite list_elem_of_In.
      intros [E|[]]. now apply Hm.
    + intros a [<-|[<-|[]]]; simpl; auto.
  - split; [apply NoDup_singleton|]. split; [apply NoDup_singleton|].
    intros a [<-|[]]; simpl; auto.
  - split; [apply NoDup_singleton|]. split; [apply NoDup_singleton|].
    intros a [<-|[]]; simpl; auto.
  - split; [apply NoDup_nil_2|]. split; [apply NoDup_nil_2|]. intros a [].
Qed.

Lemma modal_after_pass (oilClock angleClock : Clock) (st : State) :
  alerts (checkForCriticalAlerts oilClock angleClock st) <> [] ->
  showAlertModal (checkForCriticalAlerts oilClock angleClock st) = true.
Proof.
  unfold checkForCriticalAlerts.
  destruct (currentAlerts oilClock angleClock st); simpl; congruence.
Qed.

(** X6.  After a pass of [checkForCriticalAlerts], dismissing a queued
    alert by its own identifier removes that alert and no other, and
    closes the modal exactly when the queue becomes empty. *)
Theorem dismiss_queued_alert
    (oilClock angleClock : Clock) (st : State) (a : Alert.t) :
  let passed := checkForCriticalAlerts oilClock angleClock st in
  let after := dismissAlert (VString (Alert.id a)) passed in
  In a (alerts passed) ->
  ~ In a (alerts after)
  /\ (forall b, In b (alerts passed) -> b <> a -> In b (alerts after))
  /\ S (length (alerts after)) = length (alerts passed)
  /\ (showAlertModal after = false <-> alerts after = []).
Proof.
  cbv zeta. intros Ha.
  assert (Hmodal : showAlertModal (checkForCriticalAlerts oilClock angleClock st) = true).
  { apply modal_after_pass. intros E. rewrite E in Ha. destruct Ha. }
  unfold dismissAlert. cbn [alerts showAlertModal]. rewrite Hmodal.
  rewrite alerts_checkForCriticalAlerts in *. rewrite currentAlerts_split in *.
  set (oil := oil_alert oilClock (parse_latest (latest_field st "oilLevel"))) in *.
  set (angle := angle_alert angleClock (parse_latest (latest_field st "angle"))) in *.
  assert (Hoa : String.eqb (Alert.id oil) (Alert.id angle) = false)
    by (apply String.eqb_neq; apply oil_id_not_angle_id).
  assert (Hao : String.eqb (Alert.id angle) (Alert.id oil) = false)
    by (apply String.eqb_neq; intros E; symmetry in E;
        revert E; apply oil_id_not_angle_id).
  assert (Hne : oil <> angle) by (intros E; rewrite E in Hoa;
                                   rewrite String.eqb_refl in Hoa; discriminate).
  destruct (negb _ && strict_ne _ _); destruct (negb _ && (_ || _));
    cbn [app] in *.
  - destruct Ha as [<-|[<-|[]]]; cbn [List.filter string_strict_eq length];
      rewrite ?String.eqb_refl, ?Hoa, ?Hao; cbn [negb length Nat.leb];
      (split; [intros [E|[]]; congruence|]);
      (split; [intros b [<-|[<-|[]]] Hb; cbn [In]; tauto|]);
      (split; [reflexivity|]); split; discriminate.
  - destruct Ha as [<-|[]]; cbn [List.filter string_strict_eq length];
      rewrite ?String.eqb_refl; cbn [negb length Nat.leb];
      (split; [intros []|]);
      (split; [intros b [<-|[]] Hb; tauto|]);
      (split; [reflexivity|]); split; reflexivity.
  - destruct Ha as [<-|[]]; cbn [List.filter string_strict_eq length];
      rewrite ?String.eqb_refl; cbn [negb length Nat.leb];
      (split; [intros []|]);
      (split; [intros b [<-|[]] Hb; tauto|]);
      (split; [reflexivity|]); split; reflexivity.
  - destruct Ha.
Qed.

Lemma dismiss_queued_alert_witness :
  let passed := checkForCriticalAlerts clock0 clock1 (state_of (reading 15 (-4)) [] false) in
  let after := dismissAlert (VString (Alert.id (oil_alert clock0 15%float))) passed in
  In (oil_alert clock0 15%float) (alerts passed)
  /\ ~ In (oil_alert clock0 15%float) (alerts after)
  /\ S (length (alerts after)) = length (alerts passed)
  /\ (showAlertModal after = false <-> alerts after = []).
Proof.
  cbv zeta.
  assert (H : In (oil_alert clock0 15%float)
                (alerts (checkForCriticalAlerts clock0 clock1
                           (state_of (reading 15 (-4)) [] false))))
    by (vm_compute; left; reflexivity).
  split; [exact H|].
  destruct (dismiss_queued_alert clock0 clock1 _ _ H) as (H1 & _ & H3 & H4).
  split; [exact H1|]. split; [exact H3 | exact H4].
Defined.

(** X7.  The dismiss button never removes an alert: it calls
    [dismissAlert] with the index of the row, identifiers are strings,
    and no string is strictly equal to a number.  All it does is close
    the modal when the queue holds one alert or none. *)
Theorem dismiss_button_keeps_queue (index : nat) (st : State) :
  alerts (dismiss_button index st) = alerts st
  /\ ((length (alerts st) <= 1)%nat -> showAlertModal (dismiss_button index st) = false)
  /\ ((2 <= length (alerts st))%nat ->
      showAlertModal (dismiss_button index st) = showAlertModal st)
  /\ data (dismiss_button index st) = data st
  /\ latestValues (dismiss_button index st) = latestValues st.
Proof.
  unfold dismiss_button, dismissAlert. cbn [alerts showAlertModal data latestValues].
  split; [apply filter_all; reflexivity|].
  split; [|split; [|split; reflexivity]].
  - intros H. apply Nat.leb_le in H. now rewrite H.
  - intros H. destruct (length (alerts st) <=? 1)%nat eqn:E; [|reflexivity].
    apply Nat.leb_le in E. lia.
Qed.

(** ** The card of the running component *)

Lemma toFixed_NaN (x : number) (f : nat) : isNaN x = true -> toFixed x f = "NaN".
Proof. intros H. now rewrite (isNaN_true_nan x H). Qed.

Lemma toFixed_zero (x : number) : PrimFloat.is_zero x = true -> toFixed x 1 = "0.0".
Proof.
  unfold PrimFloat.is_zero. rewrite FloatAxioms.eqb_spec. intros H. unfold toFixed.
  destruct (SFeqb_cases _ _ H)
    as [(s & s' & -> & _) | [(s & _ & E) | (s & m & e & _ & E)]];
    [reflexivity | discriminate E | discriminate E].
Qed.

(** X8.  The card of a metric is handed the latest value already
    rendered to one decimal place, so it can disagree with the queue:
    whenever the latest oil level is a number other than 20 that
    renders as "20.0", a pass of [checkForCriticalAlerts] queues an
    oil-level alert (which reads "20.0%") and the oil-level card shows
    no alert; and whenever the latest angle is a number above 3.5 that
    renders as "3.5", the queue holds an angle alert and the angle card
    shows none. *)
Theorem card_rounds_before_judging
    (oilClock angleClock : Clock) (st : State) (x : number) :
  (latest_field st "oilLevel" = VNumber x ->
   formatValue (VNumber x) 1 = "20.0" ->
   strict_eq x 20%float = false ->
   exists a,
     about "Oil Level" (alerts (checkForCriticalAlerts oilClock angleClock st)) = [a]
     /\ Alert.currentValue a = "20.0%"
     /\ card_alert "Oil Level" "oilLevel" st = None)
  /\ (latest_field st "angle" = VNumber x ->
      formatValue (VNumber x) 1 = "3.5" ->
      gt x 3.5%float = true ->
      exists a,
        about "Angle" (alerts (checkForCriticalAlerts oilClock angleClock st)) = [a]
        /\ Alert.message a = "📐 Angle HIGH ALERT"
        /\ card_alert "Angle" "angle" st = None).
Proof.
  split.
  - intros Hlatest Hshown Hne. cbn [formatValue] in Hshown.
    assert (Hnum : isNaN x = false).
    { destruct (isNaN x) eqn:E; [|reflexivity].
      rewrite (toFixed_NaN x 1 E) in Hshown. discriminate. }
    assert (Hnz : PrimFloat.is_zero x = false).
    { destruct (PrimFloat.is_zero x) eqn:E; [|reflexivity].
      rewrite (toFixed_zero x E) in Hshown. discriminate. }
    rewrite alerts_checkForCriticalAlerts, about_oil_currentAlerts.
    unfold card_alert. rewrite Hlatest. cbn [parse_latest parseFloat formatValue].
    rewrite Hnz, Hnum, Hshown. unfold strict_ne.
    change (PrimFloat.eqb x 20) with (strict_eq x 20%float). rewrite Hne.
    eexists. split; [reflexivity|]. split; [|reflexivity].
    cbn [oil_alert Alert.currentValue]. now rewrite Hshown.
  - intros Hlatest Hshown Hgt. cbn [formatValue] in Hshown.
    assert (Hnum : isNaN x = false).
    { destruct (isNaN x) eqn:E; [|reflexivity].
      rewrite (toFixed_NaN x 1 E) in Hshown. discriminate. }
    assert (Hnz : PrimFloat.is_zero x = false).
    { destruct (PrimFloat.is_zero x) eqn:E; [|reflexivity].
      rewrite (toFixed_zero x E) in Hshown. discriminate. }
    rewrite alerts_checkForCriticalAlerts, about_angle_currentAlerts.
    unfold card_alert. rewrite Hlatest. cbn [parse_latest parseFloat formatValue].
    rewrite Hnz, Hnum, Hshown, Hgt, orb_true_r.
    eexists. split; [reflexivity|]. split; [|reflexivity].
    cbn [angle_alert Alert.message]. now rewrite (above_band_not_below x Hgt).
Qed.

Lemma card_rounds_before_judging_witness :
  latest_field (state_of (reading 20.04 3.52) [] false) "oilLevel" = VNumber 20.04%float
  /\ formatValue (VNumber 20.04%float) 1 = "20.0"
  /\ strict_eq 20.04%float 20%float = false
  /\ exists a,
       about "Oil Level"
         (alerts (checkForCriticalAlerts clock0 clock1
                    (state_of (reading 20.04 3.52) [] false))) = [a]
       /\ Alert.currentValue a = "20.0%"
       /\ card_alert "Oil Level" "oilLevel" (state_of (reading 20.04 3.52) [] false) = None.
Proof.
  assert (H1 : latest_field (state_of (reading 20.04 3.52) [] false) "oilLevel"
               = VNumber 20.04%float) by (vm_compute; reflexivity).
  assert (H2 : formatValue (VNumber 20.04%float) 1 = "20.0") by (vm_compute; reflexivity).
  assert (H3 : strict_eq 20.04%float 20%float = false) by (vm_compute; reflexivity).
  split; [exact H1|]. split; [exact H2|]. split; [exact H3|].
  exact (proj1 (card_rounds_before_judging clock0 clock1 _ _) H1 H2 H3).
Defined.

(** ** The statistics aggregator beyond its contract *)

Lemma fold_add_statistics_failed (data : list Sample) (latest : option Sample)
    (ms : list string) :
  fold_left (add_statistics data latest) ms None = None.
Proof. induction ms as [|m ms IH]; simpl; auto. Qed.

Lemma fold_add_statistics_null (data : list Sample) (ms : list string)
    (acc : gmap string Stats.t) :
  fold_left (add_statistics data None) ms (Some acc)
  = if existsb (fun m => (0 <? length (numeric_values data m))%nat) ms
    then None else Some acc.
Proof.
  induction ms as [|m ms IH]; simpl; [reflexivity|].
  destruct (0 <? length (numeric_values data m))%nat; simpl.
  - apply fold_add_statistics_failed.
  - apply IH.
Qed.

Lemma calculateStatistics_null (st : State) :
  latestValues st = None ->
  calculateStatistics st
  = if existsb (fun m => (0 <? length (numeric_values (data st) m))%nat) metrics
    then None else Some ∅.
Proof.
  intros Hnull. unfold calculateStatistics. rewrite Hnull.
  destruct (data st) as [|d ds] eqn:Hdata.
  - reflexivity.
  - cbn [length Nat.eqb]. apply fold_add_statistics_null.
Qed.

(** X9.  With no latest sample ([latestValues] is [null]),
    [calculateStatistics] fails exactly when one of the eight metrics
    has a numeric value in the series; otherwise it returns the empty
    object. *)
Theorem statistics_without_latest (st : State) :
  latestValues st = None ->
  (calculateStatistics st = None
   <-> exists metric, In metric metrics /\ numeric_values (data st) metric <> [])
  /\ (calculateStatistics st <> None -> calculateStatistics st = Some ∅).
Proof.
  intros Hnull. rewrite (calculateStatistics_null st Hnull).
  destruct (existsb _ metrics) eqn:E.
  - split; [|congruence]. split; [|reflexivity]. intros _.
    apply existsb_exists in E as (metric & Hin & Hlen).
    exists metric. split; [exact Hin|]. apply Nat.ltb_lt in Hlen.
    intros Hnil. rewrite Hnil in Hlen. simpl in Hlen. lia.
  - split; [|reflexivity]. split; [discriminate|].
    intros (metric & Hin & Hne). exfalso.
    assert (Hex : existsb (fun m => (0 <? length (numeric_values (data st) m))%nat)
                    metrics = true).
    { apply existsb_exists. exists metric. split; [exact Hin|].
      apply Nat.ltb_lt. destruct (numeric_values (data st) metric);
        [congruence | simpl; lia]. }
    congruence.
Qed.

Lemma statistics_without_latest_witness :
  latestValues {| data := series "temperature" [10; 20; 30]%float;
                  latestValues := None; alerts := []; showAlertModal := false |}
  = None
  /\ calculateStatistics
       {| data := series "temperature" [10; 20; 30]%float;
          latestValues := None; alerts := []; showAlertModal := false |}
     = None.
Proof.
  split; [reflexivity|].
  apply (proj1 (statistics_without_latest
                  {| data := series "temperature" [10; 20; 30]%float;
                     latestValues := None; alerts := []; showAlertModal := false |}
                  eq_refl)).
  exists "temperature". split; [now left|]. vm_compute. discriminate.
Defined.

(** X10.  Every entry of the object [calculateStatistics] returns sits
    under the capitalised name of one of the eight metrics, and there
    is a latest sample; its minimum is the rendering of a numeric value
    of that metric's series that is below or equal to all of them, and
    its maximum the rendering of one that is above or equal to all. *)
Theorem statistics_entries
    (st : State) (stats : gmap string Stats.t) (key : string) (e : Stats.t) :
  calculateStatistics st = Some stats ->
  stats !! key = Some e ->
  exists metric latest lo hi,
    In metric metrics /\ key = capitalize metric
    /\ latestValues st = Some latest
    /\ In lo (numeric_values (data st) metric)
    /\ In hi (numeric_values (data st) metric)
    /\ Stats.min e = toFixed lo 2
    /\ Stats.max e = toFixed hi 2
    /\ forall v, In v (numeric_values (data st) metric) ->
         PrimFloat.leb lo v = true /\ PrimFloat.leb v hi = true.
Proof.
  intros Hstats Hkey.
  destruct (latestValues st) as [latest|] eqn:Hlatest.
  - unfold calculateStatistics in Hstats. rewrite Hlatest in Hstats.
    destruct (data st) as [|d ds] eqn:Hdata.
    { cbn [length Nat.eqb] in Hstats. injection Hstats as <-.
      rewrite lookup_empty in Hkey. discriminate. }
    cbn [length Nat.eqb] in Hstats.
    assert (Hnd : NoDup (map capitalize metrics))
      by (apply (bool_decide_unpack _); vm_compute; exact I).
    destruct (fold_add_statistics (d :: ds) latest metrics Hnd ∅)
      as (stats' & Hfold & Hin & Hout).
    rewrite Hfold in Hstats. injection Hstats as ->.
    destruct (in_dec string_dec key (map capitalize metrics)) as [Hk|Hk].
    + apply in_map_iff in Hk as (metric & <- & Hm).
      rewrite (Hin metric Hm) in Hkey.
      set (values := numeric_values (d :: ds) metric) in *.
      destruct (0 <? length values)%nat eqn:Hlen;
        [|rewrite lookup_empty in Hkey; discriminate].
      injection Hkey as <-.
      assert (Hne : values <> []).
      { intros E. rewrite E in Hlen. discriminate. }
      pose proof (numeric_values_not_NaN (d :: ds) metric) as Hnum.
      fold values in Hnum.
      destruct (Math_min_least values Hne Hnum) as [Hlo Hleast].
      destruct (Math_max_greatest values Hne Hnum) as [Hhi Hgreatest].
      exists metric, latest, (Math_min values), (Math_max values).
      repeat split; auto.
    + rewrite (Hout key Hk), lookup_empty in Hkey. discriminate.
  - rewrite (calculateStatistics_null st Hlatest) in Hstats.
    destruct (existsb _ metrics); [discriminate|]. injection Hstats as <-.
    rewrite lookup_empty in Hkey. discriminate.
Qed.

Lemma statistics_entries_witness :
  calculateStatistics statistics_example
  = Some {[ "Temperature" :=
              {| Stats.min := "10.00"; Stats.max := "30.00";
                 Stats.avg := "20.00"; Stats.current := "30.0" |} ]}
  /\ exists metric lo hi,
       "Temperature" = capitalize metric
       /\ In lo (numeric_values (data statistics_example) metric)
       /\ In hi (numeric_values (data statistics_example) metric)
       /\ "10.00" = toFixed lo 2
       /\ "30.00" = toFixed hi 2.
Proof.
  assert (H : calculateStatistics statistics_example
              = Some {[ "Temperature" :=
                          {| Stats.min := "10.00"; Stats.max := "30.00";
                             Stats.avg := "20.00"; Stats.current := "30.0" |} ]})
    by (vm_compute; reflexivity).
  split; [exact H|].
  destruct (statistics_entries statistics_example _ "Temperature" _ H
              ltac:(vm_compute; reflexivity))
    as (metric & latest & lo & hi & _ & Hk & _ & Hlo & Hhi & Hmin & Hmax & _).
  exists metric, lo, hi. repeat split; assumption.
Defined.

(** ** Ingestion of sheet rows *)




(** [parseFloat(raw) || 0] is a number that is neither [NaN] nor [-0],
    and it parses back to itself. *)
Lemma number_or_zero_spec (raw : value) :
  exists x,
    number_or_zero raw = VNumber x
    /\ isNaN x = false
    /\ x <> (-0)%float
    /\ parseFloat (VNumber x) = x
    /\ (isNaN (parseFloat raw) = true -> x = 0%float).
Proof.
  unfold number_or_zero, or_number. set (p := parseFloat raw).
  destruct (PrimFloat.is_zero p) eqn:Hz; cbn [orb].
  - exists 0%float. repeat split; try reflexivity. discriminate.
  - destruct (isNaN p) eqn:Hn.
    + exists 0%float. repeat split; try reflexivity. discriminate.
    + exists p. split; [reflexivity|]. split; [exact Hn|]. split; [|split].
      * intros E. rewrite E in Hz. discriminate.
      * cbn [parseFloat]. now rewrite Hz.
      * discriminate.
Qed.

Lemma get_processRow_metric (clock : RowClock) (rowData : gmap string value)
    (metric : string) :
  In metric metrics ->
  exists column, get (processRow clock rowData) metric
                 = number_or_zero (get rowData column).
Proof.
  intros Hm. unfold metrics in Hm. cbn [In] in Hm.
  destruct Hm as [<-|[<-|[<-|[<-|[<-|[<-|[<-|[<-|[]]]]]]]]];
    eexists; unfold get at 1, processRow, Sample;
    repeat (rewrite lookup_insert_ne by discriminate);
    rewrite lookup_insert_eq; reflexivity.
Qed.



Lemma latest_sample_last (older : list Sample) (s : Sample) :
  latest_sample (older ++ [s]) = Some s.
Proof.
  unfold latest_sample. rewrite length_app. cbn [length].
  replace (length older + 1 - 1)%nat with (length older + 0)%nat by lia.
  rewrite nth_error_app2 by lia.
  replace (length older + 0 - length older)%nat with 0%nat by lia. reflexivity.
Qed.

Lemma latest_sample_nonempty (d : list Sample) :
  d <> [] -> exists s, latest_sample d = Some s.
Proof.
  intros Hne. destruct (exists_last Hne) as (older & s & ->).
  exists s. apply latest_sample_last.
Qed.

Lemma processRow_parses (clock : RowClock) (rowData : gmap string value)
    (metric : string) :
  In metric metrics ->
  isNaN (parseFloat (get (processRow clock rowData) metric)) = false.
Proof.
  intros Hm. destruct (get_processRow_metric clock rowData metric Hm) as [column ->].
  destruct (number_or_zero_spec (get rowData column)) as (x & -> & Hn & _ & Hp & _).
  now rewrite Hp.
Qed.

(** X13.  On the samples made of a sheet with at least one row no
    value is left out as [NaN]: each of the eight metrics has as many
    numeric values as there are rows, and [calculateStatistics], run on
    the state the fetch leaves, returns an entry for every one of the
    eight metrics. *)
Theorem statistics_of_sheet
    (headers : list string) (rows : list (RowClock * list (option Cell)))
    (st : State) :
  rows <> [] ->
  let d := processedData headers rows in
  (forall metric, In metric metrics ->
     length (numeric_values d metric) = length rows)
  /\ exists stats,
       calculateStatistics (with_data d st) = Some stats
       /\ forall metric, In metric metrics ->
            exists e, stats !! capitalize metric = Some e.
Proof.
  intros Hrows d.
  assert (Hlen : forall metric, In metric metrics ->
                   length (numeric_values d metric) = length rows).
  { intros metric Hm. unfold numeric_values. rewrite filter_all.
    - subst d. unfold processedData. now rewrite !length_map.
    - intros v Hv. apply in_map_iff in Hv as (item & <- & Hitem).
      subst d. unfold processedData in Hitem.
      apply in_map_iff in Hitem as (row & <- & _).
      now rewrite processRow_parses. }
  split; [exact Hlen|].
  assert (Hd : d <> []).
  { subst d. unfold processedData. destruct rows; [congruence|discriminate]. }
  destruct (latest_sample_nonempty d Hd) as [latest Hlatest].
  unfold calculateStatistics, with_data. cbn [data latestValues]. rewrite Hlatest.
  destruct d as [|d0 ds] eqn:Ed; [congruence|]. cbn [length Nat.eqb].
  assert (Hnd : NoDup (map capitalize metrics))
    by (apply (bool_decide_unpack _); vm_compute; exact I).
  destruct (fold_add_statistics (d0 :: ds) latest metrics Hnd ∅)
    as (stats & Hfold & Hin & _).
  exists stats. split; [exact Hfold|].
  intros metric Hm. rewrite (Hin metric Hm), (Hlen metric Hm).
  destruct rows; [congruence|]. cbn [length Nat.ltb Nat.leb]. eauto.
Qed.

Lemma statistics_of_sheet_witness :
  [(clock_row, row_without_oil)] <> []
  /\ length (numeric_values
               (processedData sheet_headers [(clock_row, row_without_oil)])
               "oilLevel") = 1%nat
  /\ exists stats,
       calculateStatistics
         (with_data (processedData sheet_headers [(clock_row, row_without_oil)])
                    (state_of (reading 20 0) [] false)) = Some stats
       /\ exists e, stats !! "OilLevel" = Some e.
Proof.
  assert (H : [(clock_row, row_without_oil)] <> []) by discriminate.
  split; [exact H|].
  destruct (statistics_of_sheet sheet_headers _ (state_of (reading 20 0) [] false) H)
    as (Hlen & stats & Hstats & Hall).
  split; [apply (Hlen "oilLevel"); vm_compute; auto|].
  exists stats. split; [exact Hstats|].
  apply (Hall "oilLevel"). vm_compute. auto.
Defined.

Lemma get_processRow_oilLevel (clock : RowClock) (rowData : gmap string value) :
  get (processRow clock rowData) "oilLevel"
  = number_or_zero (get rowData "Oil Level (%)").
Proof.
  unfold get at 1, processRow, Sample.
  repeat (rewrite lookup_insert_ne by discriminate).
  now rewrite lookup_insert_eq.
Qed.

(** X14.  A latest row whose oil-level cell does not parse as a number
    (the cell is empty, absent, or holds text) is stored with the oil
    level 0, and the pass of [checkForCriticalAlerts] that follows
    queues a LOW oil-level alert for 0.0% and opens the modal. *)
Theorem unparsed_oil_cell_raises_low_alert
    (headers : list string) (older : list (RowClock * list (option Cell)))
    (clock : RowClock) (cells : list (option Cell))
    (oilClock angleClock : Clock) (st : State) :
  isNaN (parseFloat (get (fill_rowData headers 0 cells ∅) "Oil Level (%)")) = true ->
  let fetched := with_data (processedData headers (older ++ [(clock, cells)])) st in
  let passed := checkForCriticalAlerts oilClock angleClock fetched in
  latest_field fetched "oilLevel" = VNumber 0%float
  /\ (exists a,
        about "Oil Level" (alerts passed) = [a]
        /\ Alert.message a = "🛢️ Oil Level LOW ALERT"
        /\ Alert.description a = "Oil level is 0.0% (below threshold 20%)")
  /\ showAlertModal passed = true.
Proof.
  intros Hnan fetched passed.
  assert (Hlatest : latest_field fetched "oilLevel" = VNumber 0%float).
  { subst fetched. unfold latest_field, with_data, processedData.
    cbn [latestValues]. rewrite map_app. cbn [map fst snd].
    rewrite latest_sample_last, get_processRow_oilLevel.
    unfold number_or_zero, or_number. now rewrite Hnan, orb_true_r. }
  assert (Hq : about "Oil Level" (alerts passed)
               = [oil_alert oilClock 0%float]).
  { subst passed. rewrite alerts_checkForCriticalAlerts, about_oil_currentAlerts.
    rewrite Hlatest. reflexivity. }
  split; [exact Hlatest|]. split.
  - exists (oil_alert oilClock 0%float). split; [exact Hq|]. split; reflexivity.
  - subst passed. apply modal_after_pass. intros E. unfold about in Hq.
    rewrite E in Hq. discriminate.
Qed.

Lemma unparsed_oil_cell_raises_low_alert_witness :
  isNaN (parseFloat (get (fill_rowData sheet_headers 0 row_without_oil ∅)
                         "Oil Level (%)")) = true
  /\ exists a,
       about "Oil Level"
         (alerts (checkForCriticalAlerts clock0 clock1
                    (with_data (processedData sheet_headers
                                  ([] ++ [(clock_row, row_without_oil)]))
                               (state_of (reading 20 0) [] false)))) = [a]
       /\ Alert.message a = "🛢️ Oil Level LOW ALERT"
       /\ Alert.description a = "Oil level is 0.0% (below threshold 20%)".
Proof.
  assert (H : isNaN (parseFloat (get (fill_rowData sheet_headers 0 row_without_oil ∅)
                                     "Oil Level (%)")) = true)
    by (vm_compute; reflexivity).
  split; [exact H|].
  exact (proj1 (proj2 (unparsed_oil_cell_raises_low_alert sheet_headers []
                         clock_row row_without_oil clock0 clock1
                         (state_of (reading 20 0) [] false) H))).
Defined.

(** ** The fallback path *)




(** ** The status column of the report *)

(** X16.  [getStatusIndicator] judges a reading that does not parse as
    a number as if it were 0.  With bounds that are numbers it answers
    "Normal" exactly when the reading so understood lies in the closed
    interval between them, and "Warning" otherwise. *)
Theorem status_of_reading (v : value) (minNormal maxNormal : number) :
  isNaN minNormal = false -> isNaN maxNormal = false ->
  let reading := or_number (Some (parseFloat v)) 0%float in
  (isNaN (parseFloat v) = true -> reading = 0%float)
  /\ (getStatusIndicator v minNormal maxNormal = "Normal"
      <-> PrimFloat.leb minNormal reading && PrimFloat.leb reading maxNormal = true)
  /\ (getStatusIndicator v minNormal maxNormal = "Warning"
      <-> PrimFloat.leb minNormal reading && PrimFloat.leb reading maxNormal = false).
Proof.
  intros Hlo Hhi reading.
  assert (Hr : isNaN reading = false).
  { subst reading. unfold or_number.
    destruct (PrimFloat.is_zero (parseFloat v)); [reflexivity|].
    destruct (isNaN (parseFloat v)) eqn:E; [reflexivity|exact E]. }
  split.
  { intros Hnan. subst reading. unfold or_number. now rewrite Hnan, orb_true_r. }
  unfold getStatusIndicator. fold reading. rewrite !leb_lt_or_eq.
  destruct (compare_cases minNormal reading Hlo Hr)
    as [(A1 & A2 & A3) | [(A1 & A2 & A3) | (A1 & A2 & A3)]];
  destruct (compare_cases reading maxNormal Hr Hhi)
    as [(B1 & B2 & B3) | [(B1 & B2 & B3) | (B1 & B2 & B3)]];
  change (gt minNormal reading) with (lt reading minNormal) in A3;
  rewrite A1, A2, A3, B1, B2, B3; cbn [orb andb];
  split; split; intros H; try reflexivity; discriminate H.
Qed.

Lemma status_of_reading_witness :
  isNaN 20%float = false /\ isNaN 100%float = false
  /\ getStatusIndicator VUndefined 20 100 = "Warning"
  /\ getStatusIndicator (VNumber 55%float) 20 100 = "Normal".
Proof.
  assert (H1 : isNaN 20%float = false) by reflexivity.
  assert (H2 : isNaN 100%float = false) by reflexivity.
  split; [exact H1|]. split; [exact H2|]. split.
  - apply (proj2 (proj2 (status_of_reading VUndefined 20%float 100%float H1 H2))).
    vm_compute. reflexivity.
  - apply (proj1 (proj2 (status_of_reading (VNumber 55%float) 20%float 100%float H1 H2))).
    vm_compute. reflexivity.
Defined.
